(** * UNO game server: a shallow embedding of [backend/server.py]

    The request handlers of the server are modelled as computations over
    the MongoDB collection [db.games]: a handler reads a document, works
    on its own in-memory [GameState], and either raises (nothing is
    written) or writes the new document back with [replace_one].

    Python lists are Rocq lists in the same order (index 0 is the head,
    [pop()] takes the last element), Python [int]s are [Z], [str]s are
    [string]s, the [Literal] colour type is an enumeration. *)

From Stdlib Require Import ZArith QArith String List Lia DecimalString Permutation.
From stdpp Require Import base list.
Import ListNotations.

Local Open Scope string_scope.
Local Open Scope list_scope.
Local Open Scope Z_scope.

(** ** Game models *)

(** [color: Literal["red", "blue", "green", "yellow", "wild"]] *)
Inductive Color : Type := red | blue | green | yellow | wild.

Definition Color_eqb (a b : Color) : bool :=
  match a, b with
  | red, red | blue, blue | green, green | yellow, yellow | wild, wild => true
  | _, _ => false
  end.

Definition color_str (c : Color) : string :=
  match c with
  | red => "red" | blue => "blue" | green => "green"
  | yellow => "yellow" | wild => "wild"
  end.

(** Validation of a [str] against the [Literal]: what pydantic does when a
    [Card] is built from a string colour. *)
Definition parse_color (s : string) : option Color :=
  if String.eqb s "red" then Some red
  else if String.eqb s "blue" then Some blue
  else if String.eqb s "green" then Some green
  else if String.eqb s "yellow" then Some yellow
  else if String.eqb s "wild" then Some wild
  else None.

Record Card : Type := mkCard { color : Color; value : string }.

Record Player : Type := mkPlayer {
  id : string;
  name : string;
  hand : list Card;
  card_count : Z
}.

Record GameState : Type := mkGameState {
  game_id : string;
  players : list Player;
  current_player_index : Z;
  direction : Z;
  discard_pile : list Card;
  top_card : Card;
  draw_pile_count : Z;
  winner : option string;
  game_over : bool;
  last_action : option string
}.

Record PlayCardRequest : Type := mkPlayCardRequest {
  play_player_id : string;
  card : Card;
  chosen_color : option string
}.

Record DrawCardRequest : Type := mkDrawCardRequest { draw_player_id : string }.

Record UnoCallRequest : Type := mkUnoCallRequest { uno_player_id : string }.

(** Field assignments on the in-memory objects. *)
Definition set_hand (p : Player) (h : list Card) : Player :=
  mkPlayer (id p) (name p) h (card_count p).

Definition set_card_count (p : Player) (n : Z) : Player :=
  mkPlayer (id p) (name p) (hand p) n.

Definition set_players (g : GameState) (ps : list Player) : GameState :=
  mkGameState (game_id g) ps (current_player_index g) (direction g)
    (discard_pile g) (top_card g) (draw_pile_count g) (winner g)
    (game_over g) (last_action g).

Definition set_current_player_index (g : GameState) (i : Z) : GameState :=
  mkGameState (game_id g) (players g) i (direction g)
    (discard_pile g) (top_card g) (draw_pile_count g) (winner g)
    (game_over g) (last_action g).

Definition set_direction (g : GameState) (d : Z) : GameState :=
  mkGameState (game_id g) (players g) (current_player_index g) d
    (discard_pile g) (top_card g) (draw_pile_count g) (winner g)
    (game_over g) (last_action g).

Definition set_discard_pile (g : GameState) (d : list Card) : GameState :=
  mkGameState (game_id g) (players g) (current_player_index g) (direction g)
    d (top_card g) (draw_pile_count g) (winner g)
    (game_over g) (last_action g).

Definition set_top_card (g : GameState) (c : Card) : GameState :=
  mkGameState (game_id g) (players g) (current_player_index g) (direction g)
    (discard_pile g) c (draw_pile_count g) (winner g)
    (game_over g) (last_action g).

Definition set_draw_pile_count (g : GameState) (n : Z) : GameState :=
  mkGameState (game_id g) (players g) (current_player_index g) (direction g)
    (discard_pile g) (top_card g) n (winner g)
    (game_over g) (last_action g).

Definition set_winner (g : GameState) (w : option string) : GameState :=
  mkGameState (game_id g) (players g) (current_player_index g) (direction g)
    (discard_pile g) (top_card g) (draw_pile_count g) w
    (game_over g) (last_action g).

Definition set_game_over (g : GameState) (b : bool) : GameState :=
  mkGameState (game_id g) (players g) (current_player_index g) (direction g)
    (discard_pile g) (top_card g) (draw_pile_count g) (winner g)
    b (last_action g).

Definition set_last_action (g : GameState) (a : string) : GameState :=
  mkGameState (game_id g) (players g) (current_player_index g) (direction g)
    (discard_pile g) (top_card g) (draw_pile_count g) (winner g)
    (game_over g) (Some a).

(** ** Python helpers *)

(** [str(n)] for a natural number. *)
Definition py_str (n : nat) : string := NilEmpty.string_of_uint (Nat.to_uint n).

(** [range(a, b)] *)
Definition py_range (a b : nat) : list nat := seq a (b - a).

(** The position that [l[i]] addresses in a list of length [n]: negative
    indices count from the end, anything else is an [IndexError]. *)
Definition py_position (n : nat) (i : Z) : option nat :=
  if (0 <=? i) && (i <? Z.of_nat n) then Some (Z.to_nat i)
  else if (- Z.of_nat n <=? i) && (i <? 0) then Some (Z.to_nat (Z.of_nat n + i))
  else None.

(** [l.pop()]: the last element and the list without it. *)
Fixpoint py_pop {A : Type} (l : list A) : option (A * list A) :=
  match l with
  | [] => None
  | [x] => Some (x, [])
  | x :: l' =>
      match py_pop l' with
      | Some (y, r) => Some (y, x :: r)
      | None => None
      end
  end.

(** Truthiness of an [Optional[str]]: [None] and the empty string are falsy. *)
Definition truthy (s : option string) : option string :=
  match s with
  | Some "" => None
  | Some t => Some t
  | None => None
  end.

(** ** Game logic functions *)

Definition colors : list Color := [red; blue; green; yellow].

(** [create_deck]: the three loops of the source, in order. *)
Definition create_deck : list Card :=
  flat_map (fun c =>
      mkCard c "0" ::
      flat_map (fun num => [mkCard c (py_str num); mkCard c (py_str num)])
               (py_range 1 10))
    colors
  ++ flat_map (fun c =>
      flat_map (fun _ => [mkCard c "skip"; mkCard c "reverse"; mkCard c "draw2"])
               (py_range 0 2))
    colors
  ++ flat_map (fun _ => [mkCard wild "wild"; mkCard wild "wild4"]) (py_range 0 4).

Definition can_play_card (card top_card : Card) : bool :=
  if Color_eqb (color card) wild then true
  else if Color_eqb (color card) (color top_card) then true
  else if String.eqb (value card) (value top_card) then true
  else false.


(** ** Exceptions, the collection and the handler monad *)

Inductive Exn : Type :=
| HTTPException (status_code : nat) (detail : string)
| ValidationError
| IndexError.

Inductive Result (A : Type) : Type :=
| Ok (a : A)
| Raise (e : Exn).
Arguments Ok {A} a.
Arguments Raise {A} e.

(** [db.games]: the stored documents, oldest first. *)
Definition Collection : Type := list GameState.

(** A handler runs against the collection and leaves a collection behind,
    whether it returns or raises. *)
Definition Handler (A : Type) : Type := Collection -> Collection * Result A.

Definition ret {A : Type} (a : A) : Handler A := fun db => (db, Ok a).

Definition raise {A : Type} (e : Exn) : Handler A := fun db => (db, Raise e).

Definition bind {A B : Type} (m : Handler A) (k : A -> Handler B) : Handler B :=
  fun db =>
    match m db with
    | (db', Ok a) => k a db'
    | (db', Raise e) => (db', Raise e)
    end.

Definition lift {A : Type} (r : Result A) : Handler A := fun db => (db, r).

Notation "'let!' x ':=' m 'in' k" := (bind m (fun x => k))
  (at level 10, x name, m at level 100, k at level 200).
Notation "'do!' m 'in' k" := (bind m (fun _ => k))
  (at level 10, m at level 100, k at level 200).

(** [db.games.find_one({"game_id": game_id})] *)
Definition find_one (gid : string) : Handler (option GameState) :=
  fun db => (db, Ok (List.find (fun g => String.eqb (game_id g) gid) db)).

(** [db.games.replace_one({"game_id": game_id}, doc)]: the first matching
    document is replaced, nothing happens when there is none. *)
Fixpoint replace_first (gid : string) (doc : GameState) (db : Collection) : Collection :=
  match db with
  | [] => []
  | g :: rest =>
      if String.eqb (game_id g) gid then doc :: rest
      else g :: replace_first gid doc rest
  end.

Definition replace_one (gid : string) (doc : GameState) : Handler unit :=
  fun db => (replace_first gid doc db, Ok tt).

(** [db.games.insert_one(doc)] *)
Definition insert_one (doc : GameState) : Handler unit :=
  fun db => (db ++ [doc], Ok tt).

(** ** POST /game/{game_id}/play *)

Record PlayResponse : Type := mkPlayResponse {
  play_game_state : GameState;
  action : option string
}.

(** The [enumerate] loop that looks the requested card up in the hand:
    the first index whose colour and value both match. *)
Fixpoint find_card_from (idx : nat) (hand : list Card) (c : Card) : option nat :=
  match hand with
  | [] => None
  | h :: rest =>
      if Color_eqb (color h) (color c) && String.eqb (value h) (value c)
      then Some idx
      else find_card_from (S idx) rest c
  end.

Definition find_card (hand : list Card) (c : Card) : option nat :=
  find_card_from 0 hand c.

(** Wild card colour change: [Card(color=request.chosen_color, ...)] is
    validated against the colour literal. *)
Definition recolor (played_card : Card) (chosen : option string) : Result Card :=
  if Color_eqb (color played_card) wild then
    match truthy chosen with
    | Some c =>
        match parse_color c with
        | Some c' => Ok (mkCard c' (value played_card))
        | None => Raise ValidationError
        end
    | None => Ok played_card
    end
  else Ok played_card.

(** The [if/elif] chain on the played card's value. *)
Definition next_player_change (played_card : Card) : Z :=
  if String.eqb (value played_card) "skip" then 2
  else if String.eqb (value played_card) "reverse" then 1
  else if String.eqb (value played_card) "draw2" then 2
  else if String.eqb (value played_card) "wild4" then 2
  else 1.

Definition action_tag (played_card : Card) : option string :=
  if String.eqb (value played_card) "skip" then Some "skip"
  else if String.eqb (value played_card) "reverse" then Some "reverse"
  else if String.eqb (value played_card) "draw2" then Some "draw2"
  else if String.eqb (value played_card) "wild4" then Some "wild4"
  else if String.eqb (value played_card) "wild" then Some "wild"
  else None.

Definition action_message (pname : string) (played_card : Card) : string :=
  if String.eqb (value played_card) "skip" then pname ++ " played Skip"
  else if String.eqb (value played_card) "reverse" then pname ++ " reversed direction"
  else if String.eqb (value played_card) "draw2" then pname ++ " played Draw Two"
  else if String.eqb (value played_card) "wild4" then pname ++ " played Wild Draw Four"
  else if String.eqb (value played_card) "wild" then pname ++ " played Wild"
  else pname ++ " played " ++ color_str (color played_card) ++ " " ++ value played_card.

Definition action_direction (played_card : Card) (d : Z) : Z :=
  if String.eqb (value played_card) "skip" then d
  else if String.eqb (value played_card) "reverse" then d * -1
  else d.

(** Everything the handler does to its in-memory [game_state] between
    loading it and writing it back (lines 168-243 without the two
    [replace_one] calls, which [play_card] below performs). *)
Definition play_card_step (game_state : GameState) (request : PlayCardRequest)
  : Result (GameState * option string) :=
  if game_over game_state then Raise (HTTPException 400 "Game is over") else
  match py_position (length (players game_state)) (current_player_index game_state) with
  | None => Raise IndexError
  | Some pos =>
  match players game_state !! pos with
  | None => Raise IndexError
  | Some current_player =>
  if negb (String.eqb (id current_player) (play_player_id request))
  then Raise (HTTPException 400 "Not your turn") else
  match find_card (hand current_player) (card request) with
  | None => Raise (HTTPException 400 "Card not in hand")
  | Some card_in_hand =>
  if negb (can_play_card (card request) (top_card game_state))
  then Raise (HTTPException 400 "Invalid card play") else
  match hand current_player !! card_in_hand with
  | None => Raise IndexError
  | Some played_card =>
  (* current_player.hand.pop(card_in_hand); the player object sits in the list *)
  let current_player := set_hand current_player (delete card_in_hand (hand current_player)) in
  let current_player := set_card_count current_player (Z.of_nat (length (hand current_player))) in
  let game_state := set_players game_state (<[pos := current_player]> (players game_state)) in
  match recolor played_card (chosen_color request) with
  | Raise e => Raise e
  | Ok played_card =>
  let game_state := set_discard_pile game_state (discard_pile game_state ++ [played_card]) in
  let game_state := set_top_card game_state played_card in
  if (length (hand current_player) =? 0)%nat then
    let game_state := set_winner game_state (Some (name current_player)) in
    let game_state := set_game_over game_state true in
    let game_state := set_last_action game_state (name current_player ++ " wins!") in
    Ok (game_state, Some "win")
  else
    let game_state := set_direction game_state (action_direction played_card (direction game_state)) in
    let game_state := set_last_action game_state (action_message (name current_player) played_card) in
    let game_state :=
      set_current_player_index game_state
        ((current_player_index game_state
          + next_player_change played_card * direction game_state)
         mod Z.of_nat (length (players game_state))) in
    Ok (game_state, action_tag played_card)
  end end end end end.

Definition play_card (gid : string) (request : PlayCardRequest) : Handler PlayResponse :=
  let! game := find_one gid in
  match game with
  | None => raise (HTTPException 404 "Game not found")
  | Some game_state =>
      let! r := lift (play_card_step game_state request) in
      do! replace_one gid (fst r) in
      ret (mkPlayResponse (fst r) (snd r))
  end.

(** ** POST /game/{game_id}/draw *)

(** What the [random] module hands out during one draw request: the two
    [random.random()] samples (doubles, hence rationals) and the indices
    picked by the two [random.choice] calls. *)
Record DrawRandom : Type := mkDrawRandom {
  random1 : Q;
  random2 : Q;
  choice_color : nat;
  choice_value : nat
}.

(** The doubles [0.1] and [0.5], exactly. *)
Definition float_0_1 : Q := 3602879701896397 # 36028797018963968.
Definition float_0_5 : Q := 1 # 2.

Definition Qltb (a b : Q) : bool := negb (Qle_bool b a).

(** [random.choice(seq)] is [seq[randbelow(len(seq))]]. *)
Definition py_choice {A : Type} (k : nat) (l : list A) (d : A) : A :=
  nth (k mod length l) l d.

Definition values : list string :=
  map py_str (py_range 0 10) ++ ["skip"; "reverse"; "draw2"].

Definition random_card (rnd : DrawRandom) : Card :=
  if Qltb (random1 rnd) float_0_1 then
    mkCard wild (if Qltb (random2 rnd) float_0_5 then "wild" else "wild4")
  else
    mkCard (py_choice (choice_color rnd) colors red)
           (py_choice (choice_value rnd) values "0").

Record DrawResponse : Type := mkDrawResponse {
  draw_game_state : GameState;
  drawn_card : Card;
  can_play : bool
}.

(** Lines 254-288 without the [replace_one] call. *)
Definition draw_card_step (rnd : DrawRandom) (game_state : GameState)
    (request : DrawCardRequest) : Result DrawResponse :=
  if game_over game_state then Raise (HTTPException 400 "Game is over") else
  match py_position (length (players game_state)) (current_player_index game_state) with
  | None => Raise IndexError
  | Some pos =>
  match players game_state !! pos with
  | None => Raise IndexError
  | Some current_player =>
  if negb (String.eqb (id current_player) (draw_player_id request))
  then Raise (HTTPException 400 "Not your turn") else
  let new_card := random_card rnd in
  let current_player := set_hand current_player (hand current_player ++ [new_card]) in
  let current_player := set_card_count current_player (Z.of_nat (length (hand current_player))) in
  let game_state := set_players game_state (<[pos := current_player]> (players game_state)) in
  let game_state := set_draw_pile_count game_state (Z.max 0 (draw_pile_count game_state - 1)) in
  let game_state := set_last_action game_state (name current_player ++ " drew a card") in
  let can_play := can_play_card new_card (top_card game_state) in
  let game_state :=
    if negb can_play then
      set_current_player_index game_state
        ((current_player_index game_state + direction game_state)
         mod Z.of_nat (length (players game_state)))
    else game_state in
  Ok (mkDrawResponse game_state new_card can_play)
  end end.

Definition draw_card (rnd : DrawRandom) (gid : string) (request : DrawCardRequest)
  : Handler DrawResponse :=
  let! game := find_one gid in
  match game with
  | None => raise (HTTPException 404 "Game not found")
  | Some game_state =>
      let! r := lift (draw_card_step rnd game_state request) in
      do! replace_one gid (draw_game_state r) in
      ret r
  end.

(** ** POST /game/{game_id}/uno *)

(** [next((p for p in game_state.players if p.id == player_id), None)] *)
Definition find_player (ps : list Player) (pid : string) : option Player :=
  List.find (fun p => String.eqb (id p) pid) ps.

Definition call_uno (gid : string) (request : UnoCallRequest) : Handler string :=
  let! game := find_one gid in
  match game with
  | None => raise (HTTPException 404 "Game not found")
  | Some game_state =>
      match find_player (players game_state) (uno_player_id request) with
      | None => raise (HTTPException 404 "Player not found")
      | Some player =>
          if (length (hand player) =? 1)%nat then
            let game_state := set_last_action game_state (name player ++ " called UNO!") in
            do! replace_one gid game_state in
            ret "UNO!"
          else raise (HTTPException 400 "You don't have exactly one card")
      end
  end.

(** ** POST /game/new *)

(** [v in ["wild", "wild4", "skip", "reverse", "draw2"]] *)
Definition is_action_value (v : string) : bool :=
  existsb (String.eqb v) ["wild"; "wild4"; "skip"; "reverse"; "draw2"].

(** [[deck.pop() for _ in range(n)]]: the popped cards in the order they
    were popped, and what is left of the deck. *)
Fixpoint pop_many (n : nat) (deck : list Card) : Result (list Card * list Card) :=
  match n with
  | O => Ok ([], deck)
  | S n' =>
      match py_pop deck with
      | None => Raise IndexError
      | Some (c, deck') =>
          match pop_many n' deck' with
          | Ok (h, d) => Ok (c :: h, d)
          | Raise e => Raise e
          end
      end
  end.

Section NewGame.

(** The environment of one request: [shuffle k l] is the order in which
    the [k]-th call of [random.shuffle] leaves the list [l], and
    [uuid4 k] is the string of the [k]-th [uuid.uuid4()]. *)
Variable shuffle : nat -> list Card -> list Card.
Variable uuid4 : nat -> string.

(** The dealing loop; [k] counts the uuids handed out so far. *)
Fixpoint deal_players (player_names : list string) (k : nat) (deck : list Card)
  : Result (list Player * list Card) :=
  match player_names with
  | [] => Ok ([], deck)
  | pname :: rest =>
      match pop_many 7 deck with
      | Raise e => Raise e
      | Ok (player_hand, deck') =>
          let p := mkPlayer (uuid4 k) pname player_hand
                     (Z.of_nat (length player_hand)) in
          match deal_players rest (S k) deck' with
          | Ok (ps, d) => Ok (p :: ps, d)
          | Raise e => Raise e
          end
      end
  end.

(** The [while] loop that looks for the initial top card; [k] is the
    number of the next [random.shuffle] call. [None]: the loop is still
    running after [fuel] iterations. *)
Fixpoint pick_top_card (fuel k : nat) (deck : list Card) (top : Card)
  : option (Result (Card * list Card)) :=
  if is_action_value (value top) then
    match fuel with
    | O => None
    | S fuel' =>
        let deck := top :: deck in         (* deck.insert(0, top_card) *)
        let deck := shuffle k deck in      (* random.shuffle(deck) *)
        match py_pop deck with             (* top_card = deck.pop() *)
        | None => Some (Raise IndexError)
        | Some (top', deck') => pick_top_card fuel' (S k) deck' top'
        end
    end
  else Some (Ok (top, deck)).

(** The candidate and the deck after [n] rounds of put back, reshuffle
    and pop, whatever the candidates were. *)
Fixpoint nth_candidate (n k : nat) (deck : list Card) (top : Card)
  : option (Card * list Card) :=
  match n with
  | O => Some (top, deck)
  | S n' =>
      match py_pop (shuffle k (top :: deck)) with
      | None => None
      | Some (top', deck') => nth_candidate n' (S k) deck' top'
      end
  end.

(** Lines 110-126: the deck, the players and the first candidate. *)
Definition deal (player_names : list string)
  : Result (list Player * Card * list Card) :=
  let deck := shuffle 0 create_deck in
  match deal_players player_names 0 deck with
  | Raise e => Raise e
  | Ok (ps, deck) =>
      match py_pop deck with
      | None => Raise IndexError
      | Some (top, deck) => Ok (ps, top, deck)
      end
  end.

Definition create_new_game (fuel : nat) (player_names : list string)
  : Collection -> option (Collection * Result GameState) :=
  fun db =>
  if (length player_names <? 2)%nat || (4 <? length player_names)%nat
  then Some (raise (HTTPException 400 "Game requires 2-4 players") db) else
  match deal player_names with
  | Raise e => Some (raise e db)
  | Ok (ps, top, deck) =>
      match pick_top_card fuel 1 deck top with
      | None => None
      | Some (Raise e) => Some (raise e db)
      | Some (Ok (top, deck)) =>
          let gid := uuid4 (length player_names) in
          let game_state :=
            mkGameState gid ps 0 1 [top] top (Z.of_nat (length deck))
              None false (Some "Game started") in
          Some ((do! insert_one game_state in ret game_state) db)
      end
  end.

End NewGame.

(** A shuffle that always leaves the action and wild cards at the end of
    the list (where [pop] takes from), and one that changes nothing. *)
Definition shuffle_actions_last (_ : nat) (l : list Card) : list Card :=
  List.filter (fun c => negb (is_action_value (value c))) l
  ++ List.filter (fun c => is_action_value (value c)) l.

Definition shuffle_id (_ : nat) (l : list Card) : list Card := l.

Definition uuid_of_nat (k : nat) : string := "uuid-" ++ py_str k.


(** ** Legal plays *)

(** The four checks of [play_card] pass: the game is running, the player
    addressed by [current_player_index] (at position [pos] of the list) is
    the requester, the requested card is in the hand, first at index
    [card_in_hand], and it goes on the top card. *)
Definition legal_play (game_state : GameState) (request : PlayCardRequest)
    (pos : nat) (current_player : Player) (card_in_hand : nat) : Prop :=
  game_over game_state = false
  /\ py_position (length (players game_state)) (current_player_index game_state) = Some pos
  /\ players game_state !! pos = Some current_player
  /\ id current_player = play_player_id request
  /\ find_card (hand current_player) (card request) = Some card_in_hand
  /\ can_play_card (card request) (top_card game_state) = true.

(** The in-memory state once the card has left the hand and lies on the
    discard pile (line 200). *)
Definition discard_state (game_state : GameState) (pos : nat)
    (current_player : Player) (card_in_hand : nat) (played_card : Card) : GameState :=
  let h := delete card_in_hand (hand current_player) in
  let p := set_card_count (set_hand current_player h) (Z.of_nat (length h)) in
  set_top_card
    (set_discard_pile (set_players game_state (<[pos := p]> (players game_state)))
       (discard_pile game_state ++ [played_card]))
    played_card.

(** ** Sample games *)

Definition alice : Player := mkPlayer "p1" "Alice" [mkCard red "skip"] 1.
Definition bob : Player := mkPlayer "p2" "Bob" [mkCard blue "3"; mkCard green "7"] 2.
Definition carol : Player := mkPlayer "p3" "Carol" [mkCard wild "wild4"] 1.
Definition dave : Player :=
  mkPlayer "p4" "Dave" [mkCard wild "wild"; mkCard yellow "1"] 2.

(** Alice to move with her last card, a red skip, on a red five. *)
Definition game_last_card : GameState :=
  mkGameState "g1" [alice; bob; carol] 0 1 [mkCard red "5"] (mkCard red "5") 86
    None false (Some "Game started").

(** Carol to move with her last card, a wild draw four. *)
Definition game_last_wild : GameState :=
  mkGameState "g2" [alice; bob; carol] 2 1 [mkCard red "5"] (mkCard red "5") 86
    None false (Some "Game started").

(** Dave to move with a wild and another card; play runs counter-clockwise. *)
Definition game_wild : GameState :=
  mkGameState "g3" [bob; dave] 1 (-1) [mkCard red "5"] (mkCard red "5") 40
    None false (Some "Game started").

(** Bob to move on a blue five, three players. *)
Definition game_bob : GameState :=
  mkGameState "g4" [alice; bob; carol] 1 1 [mkCard blue "5"] (mkCard blue "5") 86
    None false (Some "Game started").

(** A finished game: Alice has won, Carol still holds one card. *)
Definition game_finished : GameState :=
  mkGameState "g5" [mkPlayer "p1" "Alice" [] 0; bob; carol] 0 1
    [mkCard red "5"; mkCard red "skip"] (mkCard red "skip") 86
    (Some "Alice") true (Some "Alice wins!").

(** ** What a freshly created game looks like *)



(** Three players, index 0, clockwise; Eve holds a skip, a reverse and a
    plain card that all go on the red five. *)
Definition eve : Player :=
  mkPlayer "p5" "Eve" [mkCard red "skip"; mkCard red "reverse"; mkCard red "1"] 3.

Definition game_eve : GameState :=
  mkGameState "g6" [eve; bob; carol] 0 1 [mkCard red "5"] (mkCard red "5") 86
    None false (Some "Game started").

(** ** GET /game/{game_id} *)

Definition get_game_state (gid : string) : Handler GameState :=
  let! game := find_one gid in
  match game with
  | None => raise (HTTPException 404 "Game not found")
  | Some game => ret game
  end.

(** ** Well-formed games and the composition of the deck *)

(** What the handlers keep true of a stored game: the index addresses a
    player, the direction is a unit step, the top card is the last card of
    the discard pile, every [card_count] is the length of the hand, and
    the draw pile counter is not negative. *)
Definition state_ok (g : GameState) : Prop :=
  0 <= current_player_index g < Z.of_nat (length (players g))
  /\ (direction g = 1 \/ direction g = -1)
  /\ last (discard_pile g) = Some (top_card g)
  /\ Forall (fun p => card_count p = Z.of_nat (length (hand p))) (players g)
  /\ 0 <= draw_pile_count g.

Definition Card_eqb (a b : Card) : bool :=
  Color_eqb (color a) (color b) && String.eqb (value a) (value b).

Definition count_card (c : Card) (l : list Card) : nat :=
  length (List.filter (Card_eqb c) l).

Definition number_values : list string :=
  ["1"; "2"; "3"; "4"; "5"; "6"; "7"; "8"; "9"].

(** How many copies of a card a standard deck holds. *)
Definition deck_copies (c : Card) : nat :=
  match color c with
  | wild =>
      if existsb (String.eqb (value c)) ["wild"; "wild4"] then 4 else 0
  | _ =>
      if String.eqb (value c) "0" then 1
      else if existsb (String.eqb (value c))
                (number_values ++ ["skip"; "reverse"; "draw2"]) then 2
      else 0
  end%nat.
(** * Properties *)

(** ** Cards and legality *)

Lemma Color_eqb_eq (a b : Color) : Color_eqb a b = true <-> a = b.
Proof. destruct a, b; simpl; split; congruence. Qed.

Lemma Color_eqb_refl (a : Color) : Color_eqb a a = true.
Proof. now destruct a. Qed.

Lemma parse_color_str (c : Color) : parse_color (color_str c) = Some c.
Proof. now destruct c. Qed.

Example create_deck_108 : length create_deck = 108%nat.
Proof. reflexivity. Qed.

Example create_deck_head :
  firstn 4 create_deck
  = [mkCard red "0"; mkCard red "1"; mkCard red "1"; mkCard red "2"].
Proof. reflexivity. Qed.

(** C5: a card is playable exactly when it is wild-coloured, or shares the
    top card's colour, or shares its value; the relation is not symmetric
    (a wild goes on a red five, a red five does not go on a wild). *)
Theorem can_play_card_iff :
  (forall card top_card : Card,
      can_play_card card top_card = true
      <-> color card = wild
          \/ color card = color top_card
          \/ value card = value top_card)
  /\ can_play_card (mkCard wild "wild") (mkCard red "5") = true
  /\ can_play_card (mkCard red "5") (mkCard wild "wild") = false.
Proof.
  split; [|split; reflexivity].
  intros c t. unfold can_play_card.
  destruct (Color_eqb (color c) wild) eqn:Hw.
  { apply Color_eqb_eq in Hw. tauto. }
  destruct (Color_eqb (color c) (color t)) eqn:Hc.
  { apply Color_eqb_eq in Hc. tauto. }
  destruct (String.eqb (value c) (value t)) eqn:Hv.
  { apply String.eqb_eq in Hv. tauto. }
  split; [discriminate|].
  intros [H|[H|H]].
  - apply Color_eqb_eq in H. congruence.
  - apply Color_eqb_eq in H. congruence.
  - apply String.eqb_eq in H. congruence.
Qed.

(** ** Sample runs *)

Example values_list :
  values = ["0"; "1"; "2"; "3"; "4"; "5"; "6"; "7"; "8"; "9"; "skip"; "reverse"; "draw2"].
Proof. reflexivity. Qed.

Example py_pop_last : py_pop [1; 2; 3] = Some (3, [1; 2]).
Proof. reflexivity. Qed.

Example py_position_negative : py_position 3 (-1) = Some 2%nat.
Proof. reflexivity. Qed.

Example play_skip_three_players :
  option_map (fun r => (current_player_index (fst r), direction (fst r), snd r))
    (match play_card_step game_eve (mkPlayCardRequest "p5" (mkCard red "skip") None) with
     | Ok r => Some r
     | Raise _ => None
     end)
  = Some (2, 1, Some "skip").
Proof. reflexivity. Qed.

Example play_reverse_three_players :
  option_map (fun r => (current_player_index (fst r), direction (fst r), snd r))
    (match play_card_step game_eve (mkPlayCardRequest "p5" (mkCard red "reverse") None) with
     | Ok r => Some r
     | Raise _ => None
     end)
  = Some (2, -1, Some "reverse").
Proof. reflexivity. Qed.

Example play_first_duplicate :
  find_card [mkCard blue "3"; mkCard red "1"; mkCard red "1"] (mkCard red "1") = Some 1%nat.
Proof. reflexivity. Qed.

Example call_uno_two_cards :
  call_uno "g4" (mkUnoCallRequest "p2") [game_bob]
  = ([game_bob], Raise (HTTPException 400 "You don't have exactly one card")).
Proof. reflexivity. Qed.

(** ** The hand lookup *)

Lemma find_card_from_spec (hand : list Card) (c : Card) :
  forall k idx,
    find_card_from k hand c = Some idx ->
    exists j, idx = (k + j)%nat /\ hand !! j = Some c
              /\ forall j', (j' < j)%nat -> hand !! j' <> Some c.
Proof.
  induction hand as [|h rest IH]; intros k idx H; simpl in H; [discriminate|].
  destruct (Color_eqb (color h) (color c) && String.eqb (value h) (value c)) eqn:E.
  - injection H as <-. exists 0%nat. apply andb_prop in E as [E1 E2].
    apply Color_eqb_eq in E1. apply String.eqb_eq in E2.
    split; [lia|]. split; [|intros; lia].
    destruct h, c; simpl in *; congruence.
  - apply IH in H as (j & -> & Hj & Hfirst). exists (S j).
    split; [lia|]. split; [exact Hj|].
    intros [|j'] Hlt; simpl.
    + intros [= ->]. rewrite Color_eqb_refl, String.eqb_refl in E. discriminate.
    + apply Hfirst. lia.
Qed.

Lemma find_card_Some (hand : list Card) (c : Card) (idx : nat) :
  find_card hand c = Some idx -> hand !! idx = Some c.
Proof.
  intros H. apply find_card_from_spec in H as (j & -> & Hj & _). exact Hj.
Qed.

Lemma find_card_None (hand : list Card) (c : Card) :
  find_card hand c = None <-> ~ In c hand.
Proof.
  unfold find_card. generalize 0%nat.
  induction hand as [|h rest IH]; intros k; simpl; [tauto|].
  destruct (Color_eqb (color h) (color c) && String.eqb (value h) (value c)) eqn:E.
  - apply andb_prop in E as [E1 E2].
    apply Color_eqb_eq in E1. apply String.eqb_eq in E2.
    split; [discriminate|]. intros H. exfalso. apply H. left.
    destruct h, c; simpl in *; congruence.
  - rewrite IH. split.
    + intros Hn [->|Hin]; [|tauto].
      rewrite Color_eqb_refl, String.eqb_refl in E. discriminate.
    + tauto.
Qed.

(** ** Running the handlers against the collection *)

Lemma play_card_found (gid : string) (request : PlayCardRequest)
    (db : Collection) (game_state : GameState) :
  List.find (fun g => String.eqb (game_id g) gid) db = Some game_state ->
  play_card gid request db
  = match play_card_step game_state request with
    | Ok r => (replace_first gid (fst r) db, Ok (mkPlayResponse (fst r) (snd r)))
    | Raise e => (db, Raise e)
    end.
Proof.
  intros H. unfold play_card, bind, find_one, lift, replace_one, ret.
  rewrite H. now destruct (play_card_step game_state request).
Qed.

Lemma play_card_not_found (gid : string) (request : PlayCardRequest) (db : Collection) :
  List.find (fun g => String.eqb (game_id g) gid) db = None ->
  play_card gid request db = (db, Raise (HTTPException 404 "Game not found")).
Proof.
  intros H. unfold play_card, bind, find_one, raise. now rewrite H.
Qed.

Lemma draw_card_found (rnd : DrawRandom) (gid : string) (request : DrawCardRequest)
    (db : Collection) (game_state : GameState) :
  List.find (fun g => String.eqb (game_id g) gid) db = Some game_state ->
  draw_card rnd gid request db
  = match draw_card_step rnd game_state request with
    | Ok r => (replace_first gid (draw_game_state r) db, Ok r)
    | Raise e => (db, Raise e)
    end.
Proof.
  intros H. unfold draw_card, bind, find_one, lift, replace_one, ret.
  rewrite H. now destruct (draw_card_step rnd game_state request).
Qed.

Lemma draw_card_not_found (rnd : DrawRandom) (gid : string)
    (request : DrawCardRequest) (db : Collection) :
  List.find (fun g => String.eqb (game_id g) gid) db = None ->
  draw_card rnd gid request db = (db, Raise (HTTPException 404 "Game not found")).
Proof.
  intros H. unfold draw_card, bind, find_one, raise. now rewrite H.
Qed.

(** A legal play gets past the four checks; what is left is the colour
    change, the win check and the turn arithmetic. *)
Lemma play_card_step_legal (game_state : GameState) (request : PlayCardRequest)
    (pos : nat) (current_player : Player) (card_in_hand : nat) :
  legal_play game_state request pos current_player card_in_hand ->
  play_card_step game_state request
  = match recolor (card request) (chosen_color request) with
    | Raise e => Raise e
    | Ok played_card =>
        let g := discard_state game_state pos current_player card_in_hand played_card in
        if (length (delete card_in_hand (hand current_player)) =? 0)%nat then
          Ok (set_last_action
                (set_game_over (set_winner g (Some (name current_player))) true)
                (name current_player ++ " wins!"),
              Some "win")
        else
          let d := action_direction played_card (direction game_state) in
          Ok (set_current_player_index
                (set_last_action (set_direction g d)
                   (action_message (name current_player) played_card))
                ((current_player_index game_state + next_player_change played_card * d)
                 mod Z.of_nat (length (players game_state))),
              action_tag played_card)
    end.
Proof.
  intros (Hover & Hpos & Hp & Hid & Hfind & Hplay).
  unfold play_card_step.
  rewrite Hover, Hpos, Hp, Hid, String.eqb_refl, Hfind, Hplay. simpl negb. cbv iota.
  rewrite (find_card_Some _ _ _ Hfind).
  destruct (recolor (card request) (chosen_color request)) as [played|e]; [|reflexivity].
  simpl. rewrite length_insert. reflexivity.
Qed.

(** ** Playing a card *)

Lemma recolor_value (c played : Card) (chosen : option string) :
  recolor c chosen = Ok played -> value played = value c.
Proof.
  unfold recolor. destruct (Color_eqb (color c) wild); [|congruence].
  destruct (truthy chosen) as [s|]; [|congruence].
  destruct (parse_color s); [|discriminate]. now intros [= <-].
Qed.

Lemma players_nonempty (ps : list Player) (pos : nat) (p : Player) :
  ps !! pos = Some p -> 0 < Z.of_nat (length ps).
Proof. intros H. apply lookup_lt_Some in H. lia. Qed.

Lemma next_player_change_table (c : Card) :
  next_player_change c
  = if existsb (String.eqb (value c)) ["skip"; "draw2"; "wild4"] then 2 else 1.
Proof.
  unfold next_player_change. simpl.
  destruct (String.eqb (value c) "skip") eqn:E1; [reflexivity|].
  destruct (String.eqb (value c) "reverse") eqn:E2.
  - apply String.eqb_eq in E2. now rewrite E2.
  - simpl. destruct (String.eqb (value c) "draw2"); [reflexivity|].
    simpl. now destruct (String.eqb (value c) "wild4").
Qed.

Lemma action_direction_table (c : Card) (d : Z) :
  action_direction c d = if String.eqb (value c) "reverse" then d * -1 else d.
Proof.
  unfold action_direction.
  destruct (String.eqb (value c) "skip") eqn:E1; [|reflexivity].
  apply String.eqb_eq in E1. now rewrite E1.
Qed.

(** C1 (as amended): after a legal play that leaves cards in the hand and
    whose colour change goes through, the step count is 2 for skip, draw2
    and wild4 and 1 otherwise, a reverse flips the direction first, and the
    new index is the non-negative remainder of index + step * direction. *)
Theorem play_card_next_player (db : Collection) (gid : string)
    (game_state : GameState) (request : PlayCardRequest)
    (pos : nat) (current_player : Player) (card_in_hand : nat) (played_card : Card) :
  List.find (fun g => String.eqb (game_id g) gid) db = Some game_state ->
  legal_play game_state request pos current_player card_in_hand ->
  recolor (card request) (chosen_color request) = Ok played_card ->
  delete card_in_hand (hand current_player) <> [] ->
  let change :=
    if existsb (String.eqb (value (card request))) ["skip"; "draw2"; "wild4"]
    then 2 else 1 in
  let d :=
    if String.eqb (value (card request)) "reverse"
    then direction game_state * -1 else direction game_state in
  let n := Z.of_nat (length (players game_state)) in
  exists game_state',
    play_card gid request db
    = (replace_first gid game_state' db,
       Ok (mkPlayResponse game_state' (action_tag played_card)))
    /\ next_player_change played_card = change
    /\ direction game_state' = d
    /\ current_player_index game_state'
       = (current_player_index game_state + change * d) mod n
    /\ 0 <= current_player_index game_state' < n
    /\ game_over game_state' = false.
Proof.
  intros Hfind Hlegal Hcol Hne change d n.
  pose proof (recolor_value _ _ _ Hcol) as Hval.
  rewrite (play_card_found _ _ _ _ Hfind), (play_card_step_legal _ _ _ _ _ Hlegal), Hcol.
  destruct Hlegal as (Hover & _ & Hp & _).
  destruct (delete card_in_hand (hand current_player)) as [|x rest] eqn:Hdel; [congruence|].
  cbn [length Nat.eqb fst snd].
  eexists. split; [reflexivity|].
  assert (Hch : next_player_change played_card = change).
  { rewrite next_player_change_table, Hval. reflexivity. }
  assert (Hd : action_direction played_card (direction game_state) = d).
  { rewrite action_direction_table, Hval. reflexivity. }
  simpl. rewrite Hch, Hd.
  repeat split; try assumption.
  - apply Z.mod_pos_bound. eapply players_nonempty, Hp.
  - apply Z.mod_pos_bound. eapply players_nonempty, Hp.
Qed.

Lemma play_card_next_player_witness :
  exists game_state',
    play_card "g4" (mkPlayCardRequest "p2" (mkCard blue "3") None) [game_bob]
    = (replace_first "g4" game_state' [game_bob],
       Ok (mkPlayResponse game_state' (action_tag (mkCard blue "3"))))
    /\ next_player_change (mkCard blue "3") = 1
    /\ direction game_state' = 1
    /\ current_player_index game_state' = (1 + 1 * 1) mod 3
    /\ 0 <= current_player_index game_state' < 3
    /\ game_over game_state' = false.
Proof.
  apply (play_card_next_player [game_bob] "g4" game_bob
           (mkPlayCardRequest "p2" (mkCard blue "3") None) 1%nat bob 0%nat
           (mkCard blue "3")).
  - reflexivity.
  - repeat split; reflexivity.
  - reflexivity.
  - discriminate.
Defined.

(** C1, counterexample: Alice plays her last card, a red skip, on a red
    five with three players; the play is legal, the handler answers "win"
    and the index stays 0 instead of moving to (0 + 2 * 1) mod 3 = 2. *)
Lemma play_card_next_player_counterexample :
  let request := mkPlayCardRequest "p1" (mkCard red "skip") None in
  legal_play game_last_card request 0 alice 0
  /\ exists game_state',
      play_card "g1" request [game_last_card]
      = ([game_state'], Ok (mkPlayResponse game_state' (Some "win")))
      /\ current_player_index game_state' = 0
      /\ current_player_index game_state'
         <> (current_player_index game_last_card
             + next_player_change (card request) * direction game_last_card)
            mod Z.of_nat (length (players game_last_card)).
Proof.
  split; [repeat split; reflexivity|].
  eexists. split; [reflexivity|]. split; [reflexivity|]. discriminate.
Qed.

(** C2 (as amended): a legal play that empties the hand, and whose colour
    change goes through, records the winner, ends the game, answers "win"
    and leaves index and direction alone; when the chosen colour of a wild
    card is not a colour literal the request fails and nothing is written. *)
Theorem play_card_win (db : Collection) (gid : string)
    (game_state : GameState) (request : PlayCardRequest)
    (pos : nat) (current_player : Player) (card_in_hand : nat) :
  List.find (fun g => String.eqb (game_id g) gid) db = Some game_state ->
  legal_play game_state request pos current_player card_in_hand ->
  delete card_in_hand (hand current_player) = [] ->
  match recolor (card request) (chosen_color request) with
  | Ok played_card =>
      exists game_state',
        play_card gid request db
        = (replace_first gid game_state' db,
           Ok (mkPlayResponse game_state' (Some "win")))
        /\ winner game_state' = Some (name current_player)
        /\ game_over game_state' = true
        /\ current_player_index game_state' = current_player_index game_state
        /\ direction game_state' = direction game_state
        /\ top_card game_state' = played_card
  | Raise e =>
      e = ValidationError /\ play_card gid request db = (db, Raise ValidationError)
  end.
Proof.
  intros Hfind Hlegal Hdel.
  rewrite (play_card_found _ _ _ _ Hfind), (play_card_step_legal _ _ _ _ _ Hlegal).
  destruct (recolor (card request) (chosen_color request)) as [played|e] eqn:Hcol.
  - rewrite Hdel. cbn [length Nat.eqb fst snd].
    eexists. split; [reflexivity|]. simpl. auto.
  - assert (e = ValidationError) as ->; [|auto].
    unfold recolor in Hcol.
    destruct (Color_eqb (color (card request)) wild); [|discriminate].
    destruct (truthy (chosen_color request)) as [s|]; [|discriminate].
    destruct (parse_color s); congruence.
Qed.

Lemma play_card_win_witness :
  exists game_state',
    play_card "g2" (mkPlayCardRequest "p3" (mkCard wild "wild4") (Some "blue"))
      [game_last_card; game_last_wild]
    = (replace_first "g2" game_state' [game_last_card; game_last_wild],
       Ok (mkPlayResponse game_state' (Some "win")))
    /\ winner game_state' = Some "Carol"
    /\ game_over game_state' = true
    /\ current_player_index game_state' = 2
    /\ direction game_state' = 1
    /\ top_card game_state' = mkCard blue "wild4".
Proof.
  apply (play_card_win [game_last_card; game_last_wild] "g2" game_last_wild
           (mkPlayCardRequest "p3" (mkCard wild "wild4") (Some "blue"))
           2%nat carol 0%nat).
  - reflexivity.
  - repeat split; reflexivity.
  - reflexivity.
Defined.

(** C2, counterexample: Carol plays her last card, a wild draw four, and
    asks for the colour "purple"; the play passes the four checks and
    empties her hand, yet the request fails building the recoloured card:
    no winner, the stored game is still running. *)
Lemma play_card_win_counterexample :
  let request := mkPlayCardRequest "p3" (mkCard wild "wild4") (Some "purple") in
  legal_play game_last_wild request 2 carol 0
  /\ delete 0%nat (hand carol) = []
  /\ play_card "g2" request [game_last_wild]
     = ([game_last_wild], Raise ValidationError)
  /\ winner game_last_wild = None
  /\ game_over game_last_wild = false.
Proof. repeat split; reflexivity. Qed.

(** C9 (as amended): on a legal play of a wild-coloured card, a chosen
    colour that is one of the five colour literals replaces the colour of
    the card put on the discard pile and made the top card, the value
    staying as it was; an absent or empty chosen colour leaves the card as
    it is, wild, and the play is accepted; any other chosen colour makes
    the request fail with a validation error and nothing is written. *)
Theorem play_card_wild_color (db : Collection) (gid : string)
    (game_state : GameState) (request : PlayCardRequest)
    (pos : nat) (current_player : Player) (card_in_hand : nat) :
  List.find (fun g => String.eqb (game_id g) gid) db = Some game_state ->
  legal_play game_state request pos current_player card_in_hand ->
  color (card request) = wild ->
  let placed (played_card : Card) :=
    exists game_state' tag,
      play_card gid request db
      = (replace_first gid game_state' db, Ok (mkPlayResponse game_state' tag))
      /\ discard_pile game_state' = discard_pile game_state ++ [played_card]
      /\ top_card game_state' = played_card in
  (forall c : Color,
      chosen_color request = Some (color_str c) ->
      placed (mkCard c (value (card request))))
  /\ (chosen_color request = None \/ chosen_color request = Some "" ->
      placed (card request) /\ color (card request) = wild)
  /\ (forall s : string,
      chosen_color request = Some s -> s <> "" -> parse_color s = None ->
      play_card gid request db = (db, Raise ValidationError)).
Proof.
  intros Hfind Hlegal Hwild placed.
  assert (Hrun : forall played,
             recolor (card request) (chosen_color request) = Ok played ->
             placed played).
  { intros played Hcol. unfold placed.
    rewrite (play_card_found _ _ _ _ Hfind), (play_card_step_legal _ _ _ _ _ Hlegal), Hcol.
    cbv zeta.
    destruct (length (delete card_in_hand (hand current_player)) =? 0)%nat;
      cbn [fst snd]; do 2 eexists; (split; [reflexivity|]); simpl; auto. }
  split; [|split].
  - intros c Hc. apply Hrun. unfold recolor.
    rewrite Hwild, Hc. simpl Color_eqb. cbv iota.
    replace (truthy (Some (color_str c))) with (Some (color_str c))
      by now destruct c.
    now rewrite parse_color_str.
  - intros Hc. split; [|exact Hwild]. apply Hrun. unfold recolor.
    rewrite Hwild. simpl Color_eqb. cbv iota. now destruct Hc as [-> | ->].
  - intros s Hc Hs Hparse.
    rewrite (play_card_found _ _ _ _ Hfind), (play_card_step_legal _ _ _ _ _ Hlegal).
    unfold recolor. rewrite Hwild, Hc. simpl Color_eqb. cbv iota.
    replace (truthy (Some s)) with (Some s) by (destruct s; [congruence|reflexivity]).
    now rewrite Hparse.
Qed.

Lemma play_card_wild_color_witness :
  exists game_state' tag,
    play_card "g3" (mkPlayCardRequest "p4" (mkCard wild "wild") (Some "blue")) [game_wild]
    = (replace_first "g3" game_state' [game_wild], Ok (mkPlayResponse game_state' tag))
    /\ discard_pile game_state' = [mkCard red "5"; mkCard blue "wild"]
    /\ top_card game_state' = mkCard blue "wild".
Proof.
  refine (proj1 (play_card_wild_color [game_wild] "g3" game_wild
                   (mkPlayCardRequest "p4" (mkCard wild "wild") (Some "blue"))
                   1%nat dave 0%nat _ _ _) blue _).
  - reflexivity.
  - repeat split; reflexivity.
  - reflexivity.
  - reflexivity.
Defined.

(** C9, counterexample: Dave plays a wild on a red five, a legal play.
    With the chosen colour "purple" the request fails and the stored game
    is untouched; with the empty string as chosen colour the play is
    accepted and the top card keeps the colour wild. In neither case does
    the top card take the supplied colour. *)
Lemma play_card_wild_color_counterexample :
  let purple := mkPlayCardRequest "p4" (mkCard wild "wild") (Some "purple") in
  let empty := mkPlayCardRequest "p4" (mkCard wild "wild") (Some "") in
  legal_play game_wild purple 1 dave 0
  /\ play_card "g3" purple [game_wild] = ([game_wild], Raise ValidationError)
  /\ legal_play game_wild empty 1 dave 0
  /\ exists game_state',
      play_card "g3" empty [game_wild]
      = ([game_state'], Ok (mkPlayResponse game_state' (Some "wild")))
      /\ top_card game_state' = mkCard wild "wild"
      /\ color_str (color (top_card game_state')) <> "".
Proof.
  split; [repeat split; reflexivity|].
  split; [reflexivity|].
  split; [repeat split; reflexivity|].
  eexists. split; [reflexivity|]. split; [reflexivity|]. discriminate.
Qed.

(** ** A wild card left uncoloured *)

Lemma deck_on_uncoloured_wild (v : string) :
  v = "wild" \/ v = "wild4" ->
  forall c : Card,
    In c create_deck ->
    can_play_card c (mkCard wild v) = Color_eqb (color c) wild.
Proof.
  intros Hv.
  assert (H : forallb (fun c => Bool.eqb (can_play_card c (mkCard wild v))
                                  (Color_eqb (color c) wild)) create_deck = true).
  { destruct Hv as [-> | ->]; vm_compute; reflexivity. }
  intros c Hin. rewrite forallb_forall in H.
  apply Bool.eqb_prop. now apply H.
Qed.

(** C10: when a wild or wild4 is played legally with no chosen colour, the
    play is accepted, the top card is that card with its colour wild, and
    of the 108 cards of the deck exactly the wild-coloured ones can be
    played on it: every card of another colour is refused. *)
Theorem play_card_uncoloured_wild (db : Collection) (gid : string)
    (game_state : GameState) (request : PlayCardRequest)
    (pos : nat) (current_player : Player) (card_in_hand : nat) :
  List.find (fun g => String.eqb (game_id g) gid) db = Some game_state ->
  legal_play game_state request pos current_player card_in_hand ->
  color (card request) = wild ->
  value (card request) = "wild" \/ value (card request) = "wild4" ->
  chosen_color request = None ->
  exists game_state' tag,
    play_card gid request db
    = (replace_first gid game_state' db, Ok (mkPlayResponse game_state' tag))
    /\ top_card game_state' = card request
    /\ color (top_card game_state') = wild
    /\ (forall c : Card,
          In c create_deck -> color c <> wild ->
          can_play_card c (top_card game_state') = false)
    /\ (forall c : Card,
          In c create_deck -> color c = wild ->
          can_play_card c (top_card game_state') = true).
Proof.
  intros Hfind Hlegal Hwild Hval Hnone.
  rewrite (play_card_found _ _ _ _ Hfind), (play_card_step_legal _ _ _ _ _ Hlegal).
  unfold recolor. rewrite Hwild, Hnone. simpl Color_eqb. cbv iota beta zeta. simpl truthy. cbv iota.
  assert (Hdeck : forall c, In c create_deck ->
            can_play_card c (card request) = Color_eqb (color c) wild).
  { destruct (card request) as [col v]. simpl in Hwild, Hval. subst col.
    now apply deck_on_uncoloured_wild. }
  destruct (length (delete card_in_hand (hand current_player)) =? 0)%nat;
    cbn [fst snd]; do 2 eexists; (split; [reflexivity|]); simpl;
    (split; [reflexivity|]); (split; [exact Hwild|]); split; intros c Hin Hc;
    rewrite (Hdeck c Hin).
  all: try (destruct (Color_eqb (color c) wild) eqn:E;
            [apply Color_eqb_eq in E; congruence|reflexivity]).
  all: now apply Color_eqb_eq.
Qed.

Lemma play_card_uncoloured_wild_witness :
  exists game_state' tag,
    play_card "g3" (mkPlayCardRequest "p4" (mkCard wild "wild") None) [game_wild]
    = (replace_first "g3" game_state' [game_wild], Ok (mkPlayResponse game_state' tag))
    /\ top_card game_state' = mkCard wild "wild"
    /\ color (top_card game_state') = wild
    /\ (forall c : Card,
          In c create_deck -> color c <> wild ->
          can_play_card c (top_card game_state') = false)
    /\ (forall c : Card,
          In c create_deck -> color c = wild ->
          can_play_card c (top_card game_state') = true).
Proof.
  apply (play_card_uncoloured_wild [game_wild] "g3" game_wild
           (mkPlayCardRequest "p4" (mkCard wild "wild") None) 1%nat dave 0%nat).
  - reflexivity.
  - repeat split; reflexivity.
  - reflexivity.
  - left; reflexivity.
  - reflexivity.
Defined.

(** ** Drawing a card *)

Lemma random_card_shape (rnd : DrawRandom) :
  color (random_card rnd) = wild
  <-> value (random_card rnd) = "wild" \/ value (random_card rnd) = "wild4".
Proof.
  unfold random_card.
  destruct (Qltb (random1 rnd) float_0_1).
  - destruct (Qltb (random2 rnd) float_0_5); simpl; tauto.
  - simpl. unfold py_choice.
    assert (Hc : (choice_color rnd mod length colors < 4)%nat)
      by (apply Nat.mod_upper_bound; discriminate).
    assert (Hv : (choice_value rnd mod length values < 13)%nat)
      by (apply Nat.mod_upper_bound; discriminate).
    remember (choice_color rnd mod length colors)%nat as i eqn:Ei. clear Ei.
    remember (choice_value rnd mod length values)%nat as j eqn:Ej. clear Ej.
    change (length colors) with 4%nat in Hc.
    change (length values) with 13%nat in Hv.
    assert (Hcol : nth i colors red <> wild).
    { do 4 (destruct i as [|i]; [discriminate|]). lia. }
    assert (Hval : nth j values "0" <> "wild" /\ nth j values "0" <> "wild4").
    { do 13 (destruct j as [|j]; [split; discriminate|]). lia. }
    split; [congruence|]. intros [H|H]; [now apply Hval in H|now apply Hval in H].
Qed.

(** C8: on a running game, for the player whose turn it is, a draw appends
    the one synthesized card to that player's hand and sets card_count to
    the new length, lowers draw_pile_count by one but not below zero, and
    moves the index by direction, modulo the number of players, exactly
    when the drawn card cannot be played on the top card; otherwise the
    index stays. *)
Theorem draw_card_effect (rnd : DrawRandom) (db : Collection) (gid : string)
    (game_state : GameState) (request : DrawCardRequest)
    (pos : nat) (current_player : Player) :
  List.find (fun g => String.eqb (game_id g) gid) db = Some game_state ->
  game_over game_state = false ->
  py_position (length (players game_state)) (current_player_index game_state) = Some pos ->
  players game_state !! pos = Some current_player ->
  id current_player = draw_player_id request ->
  let new_card := random_card rnd in
  let playable := can_play_card new_card (top_card game_state) in
  let n := Z.of_nat (length (players game_state)) in
  exists game_state' player',
    draw_card rnd gid request db
    = (replace_first gid game_state' db,
       Ok (mkDrawResponse game_state' new_card playable))
    /\ players game_state' = <[pos := player']> (players game_state)
    /\ players game_state' !! pos = Some player'
    /\ hand player' = hand current_player ++ [new_card]
    /\ card_count player' = Z.of_nat (length (hand player'))
    /\ card_count player' = Z.of_nat (length (hand current_player)) + 1
    /\ id player' = id current_player
    /\ name player' = name current_player
    /\ draw_pile_count game_state' = Z.max 0 (draw_pile_count game_state - 1)
    /\ 0 <= draw_pile_count game_state'
    /\ current_player_index game_state'
       = (if playable then current_player_index game_state
          else (current_player_index game_state + direction game_state) mod n)
    /\ direction game_state' = direction game_state
    /\ top_card game_state' = top_card game_state
    /\ discard_pile game_state' = discard_pile game_state
    /\ game_over game_state' = false.
Proof.
  intros Hfind Hover Hpos Hp Hid new_card playable n.
  rewrite (draw_card_found _ _ _ _ _ Hfind).
  unfold draw_card_step.
  rewrite Hover, Hpos, Hp, Hid, String.eqb_refl. simpl negb. cbv iota.
  fold new_card. cbv zeta.
  exists
    (let g := set_last_action
         (set_draw_pile_count
            (set_players game_state
               (<[pos := set_card_count
                           (set_hand current_player (hand current_player ++ [new_card]))
                           (Z.of_nat (length (hand current_player ++ [new_card])))]>
                  (players game_state)))
            (Z.max 0 (draw_pile_count game_state - 1)))
         (name current_player ++ " drew a card") in
     if negb playable
     then set_current_player_index g
            ((current_player_index game_state + direction game_state) mod n)
     else g).
  eexists.
  split.
  { simpl. rewrite length_insert. fold playable. fold n.
    destruct playable; reflexivity. }
  assert (Hlt : (pos < length (players game_state))%nat)
    by (eapply lookup_lt_Some, Hp).
  destruct playable; simpl;
    repeat (split; [first [reflexivity | assumption | lia
                          | now apply list_lookup_insert_eq
                          | rewrite length_app; simpl; lia]|]);
    assumption.
Qed.

Lemma draw_card_effect_witness :
  let rnd := mkDrawRandom (1 # 2) (1 # 4) 2 11 in
  exists game_state' player',
    draw_card rnd "g4" (mkDrawCardRequest "p2") [game_bob]
    = (replace_first "g4" game_state' [game_bob],
       Ok (mkDrawResponse game_state' (mkCard green "reverse") false))
    /\ players game_state' = <[1%nat := player']> (players game_bob)
    /\ players game_state' !! 1%nat = Some player'
    /\ hand player' = hand bob ++ [mkCard green "reverse"]
    /\ card_count player' = Z.of_nat (length (hand player'))
    /\ card_count player' = 2 + 1
    /\ id player' = "p2"
    /\ name player' = "Bob"
    /\ draw_pile_count game_state' = Z.max 0 (86 - 1)
    /\ 0 <= draw_pile_count game_state'
    /\ current_player_index game_state' = (1 + 1) mod 3
    /\ direction game_state' = 1
    /\ top_card game_state' = mkCard blue "5"
    /\ discard_pile game_state' = [mkCard blue "5"]
    /\ game_over game_state' = false.
Proof.
  apply (draw_card_effect (mkDrawRandom (1 # 2) (1 # 4) 2 11) [game_bob] "g4"
           game_bob (mkDrawCardRequest "p2") 1%nat bob); reflexivity.
Defined.

(** ** Rejections *)

Lemma play_card_raise_db (gid : string) (request : PlayCardRequest)
    (db db' : Collection) (e : Exn) :
  play_card gid request db = (db', Raise e) -> db' = db.
Proof.
  destruct (List.find (fun g => String.eqb (game_id g) gid) db) as [g|] eqn:Hfind.
  - rewrite (play_card_found _ _ _ _ Hfind).
    destruct (play_card_step g request); [discriminate|]. now intros [= <- _].
  - rewrite (play_card_not_found _ _ _ Hfind). now intros [= <- _].
Qed.

Lemma draw_card_raise_db (rnd : DrawRandom) (gid : string) (request : DrawCardRequest)
    (db db' : Collection) (e : Exn) :
  draw_card rnd gid request db = (db', Raise e) -> db' = db.
Proof.
  destruct (List.find (fun g => String.eqb (game_id g) gid) db) as [g|] eqn:Hfind.
  - rewrite (draw_card_found _ _ _ _ _ Hfind).
    destruct (draw_card_step rnd g request); [discriminate|]. now intros [= <- _].
  - rewrite (draw_card_not_found _ _ _ _ Hfind). now intros [= <- _].
Qed.

Lemma play_card_game_over (gid : string) (request : PlayCardRequest)
    (db : Collection) (game_state : GameState) :
  List.find (fun g => String.eqb (game_id g) gid) db = Some game_state ->
  game_over game_state = true ->
  play_card gid request db = (db, Raise (HTTPException 400 "Game is over")).
Proof.
  intros Hfind Hover. rewrite (play_card_found _ _ _ _ Hfind).
  unfold play_card_step. now rewrite Hover.
Qed.

Lemma draw_card_game_over (rnd : DrawRandom) (gid : string) (request : DrawCardRequest)
    (db : Collection) (game_state : GameState) :
  List.find (fun g => String.eqb (game_id g) gid) db = Some game_state ->
  game_over game_state = true ->
  draw_card rnd gid request db = (db, Raise (HTTPException 400 "Game is over")).
Proof.
  intros Hfind Hover. rewrite (draw_card_found _ _ _ _ _ Hfind).
  unfold draw_card_step. now rewrite Hover.
Qed.

(** C3, the failing input: the stored game is over (Alice has won) and
    Carol, who holds one card, calls UNO. [play_card] and [draw_card]
    refuse a finished game, [call_uno] has no such check: it answers
    "UNO!" and overwrites last_action in the stored game. *)
Theorem call_uno_after_game_over :
  game_over game_finished = true
  /\ play_card "g5" (mkPlayCardRequest "p3" (mkCard wild "wild4") None) [game_finished]
     = ([game_finished], Raise (HTTPException 400 "Game is over"))
  /\ draw_card (mkDrawRandom (1 # 2) (1 # 4) 2 11) "g5" (mkDrawCardRequest "p3")
       [game_finished]
     = ([game_finished], Raise (HTTPException 400 "Game is over"))
  /\ call_uno "g5" (mkUnoCallRequest "p3") [game_finished]
     = ([set_last_action game_finished "Carol called UNO!"], Ok "UNO!")
  /\ last_action game_finished = Some "Alice wins!"
  /\ set_last_action game_finished "Carol called UNO!" <> game_finished.
Proof. repeat split; try reflexivity. discriminate. Qed.

(** C4: a play or a draw that raises leaves the collection exactly as it
    was, and the checks of a play are made in the order game over, not your
    turn, card not in hand, invalid card play, the first failing one
    deciding the answer; a draw checks game over, then not your turn. *)
Theorem rejected_requests_leave_state (rnd : DrawRandom) (db : Collection)
    (gid : string) (game_state : GameState)
    (request : PlayCardRequest) (draw_request : DrawCardRequest) :
  List.find (fun g => String.eqb (game_id g) gid) db = Some game_state ->
  (forall db' e, play_card gid request db = (db', Raise e) -> db' = db)
  /\ (forall db' e, draw_card rnd gid draw_request db = (db', Raise e) -> db' = db)
  /\ (game_over game_state = true ->
      play_card gid request db = (db, Raise (HTTPException 400 "Game is over"))
      /\ draw_card rnd gid draw_request db
         = (db, Raise (HTTPException 400 "Game is over")))
  /\ (forall pos current_player,
      game_over game_state = false ->
      py_position (length (players game_state)) (current_player_index game_state)
      = Some pos ->
      players game_state !! pos = Some current_player ->
      (id current_player <> play_player_id request ->
       play_card gid request db = (db, Raise (HTTPException 400 "Not your turn")))
      /\ (id current_player <> draw_player_id draw_request ->
          draw_card rnd gid draw_request db
          = (db, Raise (HTTPException 400 "Not your turn")))
      /\ (id current_player = play_player_id request ->
          find_card (hand current_player) (card request) = None ->
          play_card gid request db = (db, Raise (HTTPException 400 "Card not in hand")))
      /\ (id current_player = play_player_id request ->
          find_card (hand current_player) (card request) <> None ->
          can_play_card (card request) (top_card game_state) = false ->
          play_card gid request db = (db, Raise (HTTPException 400 "Invalid card play")))).
Proof.
  intros Hfind.
  split; [intros db' e; apply play_card_raise_db|].
  split; [intros db' e; apply draw_card_raise_db|].
  split.
  { intros Hover. split.
    - now apply play_card_game_over with game_state.
    - now apply draw_card_game_over with game_state. }
  intros pos p Hover Hpos Hp.
  rewrite (play_card_found _ _ _ _ Hfind), (draw_card_found _ _ _ _ _ Hfind).
  unfold play_card_step, draw_card_step. rewrite Hover, Hpos, Hp.
  repeat split.
  - intros Hid. apply String.eqb_neq in Hid. now rewrite Hid.
  - intros Hid. apply String.eqb_neq in Hid. now rewrite Hid.
  - intros Hid Hnone. now rewrite Hid, String.eqb_refl, Hnone.
  - intros Hid Hsome Hplay. rewrite Hid, String.eqb_refl. simpl negb. cbv iota.
    destruct (find_card (hand p) (card request)); [|congruence].
    now rewrite Hplay.
Qed.

Lemma rejected_requests_leave_state_witness :
  play_card "g4" (mkPlayCardRequest "p2" (mkCard green "7") None) [game_bob]
  = ([game_bob], Raise (HTTPException 400 "Invalid card play")).
Proof.
  destruct (rejected_requests_leave_state (mkDrawRandom (1 # 2) (1 # 4) 2 11)
              [game_bob] "g4" game_bob
              (mkPlayCardRequest "p2" (mkCard green "7") None)
              (mkDrawCardRequest "p2") eq_refl) as (_ & _ & _ & H).
  destruct (H 1%nat bob eq_refl eq_refl eq_refl) as (_ & _ & _ & H4).
  apply H4; [reflexivity|discriminate|reflexivity].
Defined.

(** ** Popping from the deck *)

Lemma py_pop_cons {A : Type} (x : A) (l : list A) :
  l <> [] ->
  py_pop (x :: l)
  = match py_pop l with
    | Some (y, r) => Some (y, x :: r)
    | None => None
    end.
Proof. destruct l; [congruence|reflexivity]. Qed.

Lemma py_pop_snoc {A : Type} (l : list A) (x : A) :
  py_pop (l ++ [x]) = Some (x, l).
Proof.
  induction l as [|a l IH]; [reflexivity|].
  change ((a :: l) ++ [x]) with (a :: (l ++ [x])).
  rewrite py_pop_cons, IH; [reflexivity|].
  now destruct l.
Qed.

Lemma py_pop_Some {A : Type} (l r : list A) (x : A) :
  py_pop l = Some (x, r) <-> l = r ++ [x].
Proof.
  split.
  - intros H. destruct l as [|a l']; [discriminate|].
    destruct (exists_last (l := a :: l')) as (r' & x' & E); [discriminate|].
    rewrite E, py_pop_snoc in H. injection H as -> ->. exact E.
  - intros ->. apply py_pop_snoc.
Qed.

Lemma py_pop_nonempty {A : Type} (l : list A) :
  l <> [] -> exists x r, py_pop l = Some (x, r) /\ l = r ++ [x].
Proof.
  intros H. destruct (exists_last H) as (r & x & ->).
  exists x, r. now rewrite py_pop_snoc.
Qed.

Lemma pop_many_enough (n : nat) :
  forall deck : list Card,
    (n <= length deck)%nat ->
    exists h d,
      pop_many n deck = Ok (h, d)
      /\ length h = n
      /\ deck = d ++ rev h.
Proof.
  induction n as [|n IH]; intros deck Hlen.
  - exists [], deck. simpl. now rewrite app_nil_r.
  - destruct (py_pop_nonempty deck) as (c & r & Hpop & ->).
    { intros ->. simpl in Hlen. lia. }
    rewrite length_app in Hlen. simpl in Hlen.
    destruct (IH r) as (h & d & Hh & Hn & ->); [lia|].
    exists (c :: h), d. simpl. rewrite Hpop, Hh.
    split; [reflexivity|]. split; [now rewrite Hn|].
    now rewrite <- app_assoc.
Qed.

(** ** Dealing *)

Section NewGameFacts.

Variable shuffle : nat -> list Card -> list Card.
Variable uuid4 : nat -> string.

Lemma deal_players_enough (player_names : list string) :
  forall (k : nat) (deck : list Card),
    (7 * length player_names <= length deck)%nat ->
    exists ps d,
      deal_players uuid4 player_names k deck = Ok (ps, d)
      /\ map name ps = player_names
      /\ map id ps = map uuid4 (seq k (length player_names))
      /\ Forall (fun p => length (hand p) = 7%nat /\ card_count p = 7) ps
      /\ (length d + 7 * length player_names = length deck)%nat.
Proof.
  induction player_names as [|pname rest IH]; intros k deck Hlen.
  - exists [], deck. simpl. repeat split; auto.
  - simpl length in Hlen.
    destruct (pop_many_enough 7 deck) as (h & d & Hpop & Hh & Hdeck); [lia|].
    assert (Hd : (length d + 7 = length deck)%nat).
    { rewrite Hdeck, length_app, length_rev. lia. }
    destruct (IH (S k) d) as (ps & d' & Hdeal & Hnames & Hids & Hhands & Hd'); [lia|].
    exists (mkPlayer (uuid4 k) pname h (Z.of_nat (length h)) :: ps), d'.
    cbn [deal_players]. rewrite Hpop, Hdeal.
    split; [reflexivity|]. simpl.
    split; [now rewrite Hnames|].
    split; [now rewrite Hids|].
    split; [|lia].
    constructor; [|exact Hhands]. simpl. rewrite Hh. split; reflexivity.
Qed.

Hypothesis shuffle_perm : forall k l, Permutation l (shuffle k l).

Lemma shuffle_length (k : nat) (l : list Card) : length (shuffle k l) = length l.
Proof. symmetry. apply Permutation_length, shuffle_perm. Qed.

Lemma deal_enough (player_names : list string) :
  (length player_names <= 4)%nat ->
  exists ps top deck,
    deal shuffle uuid4 player_names = Ok (ps, top, deck)
    /\ map name ps = player_names
    /\ map id ps = map uuid4 (seq 0 (length player_names))
    /\ Forall (fun p => length (hand p) = 7%nat /\ card_count p = 7) ps
    /\ (length deck + 7 * length player_names + 1 = 108)%nat.
Proof.
  intros Hn. unfold deal.
  pose proof (shuffle_length 0 create_deck) as Hlen.
  change (length create_deck) with 108%nat in Hlen.
  destruct (deal_players_enough player_names 0 (shuffle 0 create_deck))
    as (ps & d & Hdeal & Hnames & Hids & Hhands & Hd); [lia|].
  rewrite Hdeal.
  destruct (py_pop_nonempty d) as (top & deck & Hpop & ->).
  { intros ->. simpl in Hd. lia. }
  rewrite Hpop. exists ps, top, deck.
  rewrite length_app in Hd. simpl in Hd.
  repeat split; auto. lia.
Qed.

(** ** The search for the first top card *)

Lemma pick_top_card_result (fuel : nat) :
  forall (k : nat) (deck : list Card) (top : Card) (r : Result (Card * list Card)),
    pick_top_card shuffle fuel k deck top = Some r ->
    exists t d,
      r = Ok (t, d)
      /\ is_action_value (value t) = false
      /\ Permutation (t :: d) (top :: deck).
Proof.
  induction fuel as [|fuel IH]; intros k deck top r H.
  - simpl in H. destruct (is_action_value (value top)) eqn:E; [discriminate|].
    injection H as <-. exists top, deck. auto.
  - simpl in H. destruct (is_action_value (value top)) eqn:E.
    + destruct (py_pop_nonempty (shuffle k (top :: deck))) as (t' & d' & Hpop & Hsh).
      { intros Hnil. pose proof (shuffle_length k (top :: deck)) as Hl.
        rewrite Hnil in Hl. discriminate. }
      rewrite Hpop in H. apply IH in H as (t & d & -> & Hplain & Hperm).
      exists t, d. split; [reflexivity|]. split; [exact Hplain|].
      rewrite Hperm. rewrite (shuffle_perm k (top :: deck)), Hsh.
      apply Permutation_cons_append.
    + injection H as <-. exists top, deck. auto.
Qed.

Lemma pick_top_card_found (n : nat) :
  forall (k : nat) (deck : list Card) (top t : Card) (d : list Card),
    nth_candidate shuffle n k deck top = Some (t, d) ->
    is_action_value (value t) = false ->
    exists fuel r, (fuel <= n)%nat /\ pick_top_card shuffle fuel k deck top = Some r.
Proof.
  induction n as [|n IH]; intros k deck top t d Hn Hplain.
  - injection Hn as <- <-. exists 0%nat. eexists. split; [lia|].
    simpl. rewrite Hplain. reflexivity.
  - destruct (is_action_value (value top)) eqn:E.
    + simpl in Hn.
      destruct (py_pop (shuffle k (top :: deck))) as [[t' d']|] eqn:Hpop; [|discriminate].
      destruct (IH _ _ _ _ _ Hn Hplain) as (fuel & r & Hle & Hr).
      exists (S fuel), r. split; [lia|]. simpl. now rewrite E, Hpop.
    + exists 0%nat. eexists. split; [lia|]. simpl. rewrite E. reflexivity.
Qed.

Lemma pick_top_card_candidate (fuel : nat) :
  forall (k : nat) (deck : list Card) (top t : Card) (d : list Card),
    pick_top_card shuffle fuel k deck top = Some (Ok (t, d)) ->
    exists n, (n <= fuel)%nat /\ nth_candidate shuffle n k deck top = Some (t, d).
Proof.
  induction fuel as [|fuel IH]; intros k deck top t d H.
  - simpl in H. destruct (is_action_value (value top)); [discriminate|].
    injection H as <- <-. now exists 0%nat.
  - simpl in H. destruct (is_action_value (value top)).
    + destruct (py_pop (shuffle k (top :: deck))) as [[t' d']|] eqn:Hpop; [|discriminate].
      apply IH in H as (n & Hle & Hn). exists (S n). split; [lia|].
      simpl. now rewrite Hpop.
    + injection H as <- <-. exists 0%nat. split; [lia|reflexivity].
Qed.

Lemma pick_top_card_more_fuel (fuel : nat) :
  forall (k : nat) (deck : list Card) (top : Card) (r : Result (Card * list Card)),
    pick_top_card shuffle fuel k deck top = Some r ->
    forall fuel', (fuel <= fuel')%nat ->
      pick_top_card shuffle fuel' k deck top = Some r.
Proof.
  induction fuel as [|fuel IH]; intros k deck top r H fuel' Hle.
  - simpl in H. destruct (is_action_value (value top)) eqn:E; [discriminate|].
    destruct fuel'; simpl; now rewrite E.
  - destruct fuel' as [|fuel']; [lia|]. simpl in H |- *.
    destruct (is_action_value (value top)); [|exact H].
    destruct (py_pop (shuffle k (top :: deck))) as [[t' d']|]; [|exact H].
    apply IH with (fuel' := fuel') in H; [exact H|lia].
Qed.

End NewGameFacts.

(** C7 (as amended): with a source whose shuffles permute the deck, the
    retry loop stops exactly when some round of put back, reshuffle and pop
    leaves a card on top whose value is none of wild, wild4, skip, reverse,
    draw2; whenever it stops it returns such a card together with the rest
    of the same cards; and a rejected candidate is put at index 0, the end
    of the deck that [pop] reaches last, before the reshuffle. *)
Theorem pick_top_card_spec (shuffle : nat -> list Card -> list Card)
    (k : nat) (deck : list Card) (top : Card) :
  (forall k l, Permutation l (shuffle k l)) ->
  ((exists fuel r, pick_top_card shuffle fuel k deck top = Some r)
   <-> (exists n t d,
          nth_candidate shuffle n k deck top = Some (t, d)
          /\ is_action_value (value t) = false))
  /\ (forall fuel r,
        pick_top_card shuffle fuel k deck top = Some r ->
        exists t d,
          r = Ok (t, d)
          /\ is_action_value (value t) = false
          /\ Permutation (t :: d) (top :: deck))
  /\ (is_action_value (value top) = true ->
      forall fuel,
        pick_top_card shuffle (S fuel) k deck top
        = match py_pop (shuffle k (top :: deck)) with
          | None => Some (Raise IndexError)
          | Some (top', deck') => pick_top_card shuffle fuel (S k) deck' top'
          end)
  /\ (forall c d, py_pop deck = Some (c, d) -> py_pop (top :: deck) = Some (c, top :: d)).
Proof.
  intros Hperm. split; [split|split; [|split]].
  - intros (fuel & r & H).
    destruct (pick_top_card_result shuffle Hperm _ _ _ _ _ H) as (t & d & -> & Hplain & _).
    destruct (pick_top_card_candidate shuffle _ _ _ _ _ _ H) as (n & _ & Hn).
    now exists n, t, d.
  - intros (n & t & d & Hn & Hplain).
    destruct (pick_top_card_found shuffle _ _ _ _ _ _ Hn Hplain) as (fuel & r & _ & H).
    now exists fuel, r.
  - intros fuel r. apply pick_top_card_result, Hperm.
  - intros Haction fuel. simpl. now rewrite Haction.
  - intros c d Hpop. apply py_pop_Some in Hpop as ->.
    change (top :: d ++ [c]) with ((top :: d) ++ [c]). apply py_pop_snoc.
Qed.

Lemma pick_top_card_spec_witness :
  exists t d,
    Ok (mkCard red "5", [mkCard green "skip"; mkCard blue "draw2"]) = Ok (t, d)
    /\ is_action_value (value t) = false
    /\ Permutation (t :: d)
         [mkCard blue "draw2"; mkCard red "5"; mkCard green "skip"].
Proof.
  destruct (pick_top_card_spec shuffle_id 1
              [mkCard red "5"; mkCard green "skip"] (mkCard blue "draw2")
              (fun _ l => Permutation_refl l)) as (_ & H & _).
  apply (H 2%nat). reflexivity.
Defined.

(** ** A source that never lets a numbered card through *)

Lemma shuffle_actions_last_perm (k : nat) (l : list Card) :
  Permutation l (shuffle_actions_last k l).
Proof.
  unfold shuffle_actions_last. induction l as [|c l IH]; [constructor|].
  simpl. destruct (is_action_value (value c)); simpl.
  - now apply Permutation_cons_app.
  - now constructor.
Qed.

Lemma pick_top_card_actions_last (fuel : nat) :
  forall (k : nat) (deck : list Card) (top : Card),
    is_action_value (value top) = true ->
    pick_top_card shuffle_actions_last fuel k deck top = None.
Proof.
  induction fuel as [|fuel IH]; intros k deck top Haction; simpl; rewrite Haction;
    [reflexivity|].
  unfold shuffle_actions_last at 1. simpl List.filter. rewrite Haction. simpl negb. cbv iota.
  set (plain := List.filter (fun c => negb (is_action_value (value c))) deck).
  set (actions := List.filter (fun c => is_action_value (value c)) deck).
  destruct (exists_last (l := top :: actions)) as (r & x & E); [discriminate|].
  rewrite E, app_assoc, py_pop_snoc.
  apply IH.
  assert (Hin : In x (top :: actions)) by (rewrite E; apply in_or_app; right; now left).
  destruct Hin as [<-|Hin]; [exact Haction|].
  now apply filter_In in Hin.
Qed.

(** C7, counterexample: not every source makes the loop stop while a
    numbered card is in the deck. The source that reshuffles the action
    and wild cards to the top is a permutation each time; starting from a
    blue draw2 as candidate and a deck holding a red five and a green
    skip, the loop is still running after any number of rounds. *)
Lemma pick_top_card_counterexample :
  (forall k l, Permutation l (shuffle_actions_last k l))
  /\ In (mkCard red "5") [mkCard red "5"; mkCard green "skip"]
  /\ In (value (mkCard red "5")) (map py_str (py_range 0 10))
  /\ forall fuel,
      pick_top_card shuffle_actions_last fuel 1
        [mkCard red "5"; mkCard green "skip"] (mkCard blue "draw2")
      = None.
Proof.
  split; [exact shuffle_actions_last_perm|].
  split; [now left|].
  split; [vm_compute; tauto|].
  intros fuel. now apply pick_top_card_actions_last.
Qed.


(** ** Creating a game *)





Example create_new_game_run :
  option_map (fun out =>
      match snd out with
      | Ok g => Some (top_card g, draw_pile_count g, map card_count (players g))
      | Raise _ => None
      end)
    (create_new_game shuffle_id uuid_of_nat 18 ["Ann"; "Ben"] [])
  = Some (Some (mkCard yellow "9", 93, [7; 7])).
Proof. vm_compute. reflexivity. Qed.

Example create_new_game_too_few :
  create_new_game shuffle_id uuid_of_nat 0 ["Ann"] []
  = Some ([], Raise (HTTPException 400 "Game requires 2-4 players")).
Proof. reflexivity. Qed.

(** * Further properties of the server *)

(** ** The deck *)

Lemma Card_eqb_eq (a b : Card) : Card_eqb a b = true <-> a = b.
Proof.
  unfold Card_eqb. rewrite andb_true_iff, Color_eqb_eq, String.eqb_eq.
  destruct a, b; simpl; split; [intros [-> ->]; reflexivity|intros [= -> ->]; auto].
Qed.

Lemma count_card_In (c : Card) (l : list Card) :
  (0 < count_card c l)%nat <-> In c l.
Proof.
  unfold count_card. induction l as [|x l IH]; simpl; [split; [lia|tauto]|].
  destruct (Card_eqb c x) eqn:E; simpl.
  - apply Card_eqb_eq in E. split; [auto|lia].
  - rewrite IH. split; [auto|]. intros [->|H]; [|exact H].
    assert (Card_eqb c c = true) by now apply Card_eqb_eq. congruence.
Qed.

Lemma create_deck_values (c : Card) :
  In c create_deck ->
  In (value c) ("0" :: number_values ++ ["skip"; "reverse"; "draw2"; "wild"; "wild4"]).
Proof.
  assert (H : forallb (fun c =>
                existsb (String.eqb (value c))
                  ("0" :: number_values ++ ["skip"; "reverse"; "draw2"; "wild"; "wild4"]))
                create_deck = true) by (vm_compute; reflexivity).
  rewrite forallb_forall in H. intros Hin. apply H in Hin.
  apply existsb_exists in Hin as (v & Hv & E). apply String.eqb_eq in E. now subst.
Qed.

Lemma deck_copies_value (c : Card) :
  deck_copies c <> 0%nat ->
  In (value c) ("0" :: number_values ++ ["skip"; "reverse"; "draw2"; "wild"; "wild4"]).
Proof.
  intros H.
  assert (Hex : existsb (String.eqb (value c))
                  ("0" :: number_values ++ ["skip"; "reverse"; "draw2"; "wild"; "wild4"])
                = true).
  { unfold deck_copies in H. apply not_false_iff_true. intros Hf.
    simpl in Hf. repeat (apply orb_false_iff in Hf as [? Hf]).
    apply H. destruct (color c); simpl;
      repeat match goal with E : String.eqb _ _ = false |- _ => rewrite E; clear E end;
      reflexivity. }
  apply existsb_exists in Hex as (v & Hv & E). apply String.eqb_eq in E. now subst.
Qed.

Lemma create_deck_count (c : Card) :
  count_card c create_deck = deck_copies c.
Proof.
  destruct (Nat.eq_dec (count_card c create_deck) 0%nat) as [Hz|Hnz];
    [destruct (Nat.eq_dec (deck_copies c) 0%nat) as [Hz'|Hnz']; [congruence|]|].
  - apply deck_copies_value in Hnz'. destruct c as [col v]. simpl in Hnz'.
    repeat (destruct Hnz' as [<-|Hnz']; [destruct col; vm_compute; reflexivity|]).
    destruct Hnz'.
  - assert (Hin : In c create_deck) by (apply count_card_In; lia).
    apply create_deck_values in Hin. destruct c as [col v]. simpl in Hin.
    repeat (destruct Hin as [<-|Hin]; [destruct col; vm_compute; reflexivity|]).
    destruct Hin.
Qed.

(** X1: the deck built by [create_deck] has 108 cards: for each of the
    four colours one "0" and two each of "1".."9", skip, reverse and draw2,
    four wild and four wild4 of colour wild, and no other card at all; so a
    card of the deck has colour wild exactly when its value is wild or
    wild4. *)
Theorem create_deck_composition :
  length create_deck = 108%nat
  /\ (forall c : Card, count_card c create_deck = deck_copies c)
  /\ (forall c : Card,
        In c create_deck ->
        (color c = wild <-> value c = "wild" \/ value c = "wild4")).
Proof.
  split; [reflexivity|]. split; [exact create_deck_count|].
  intros c Hin. apply count_card_In in Hin. rewrite create_deck_count in Hin.
  unfold deck_copies in Hin. destruct c as [col v]. simpl in *.
  split.
  - intros ->. destruct (String.eqb_spec v "wild"); [auto|].
    destruct (String.eqb_spec v "wild4"); [auto|]. simpl in Hin. lia.
  - intros Hv. destruct col; try reflexivity;
      destruct Hv as [-> | ->]; vm_compute in Hin; lia.
Qed.

(** ** The synthesized card of a draw *)

Lemma random_card_in_deck_helper (rnd : DrawRandom) :
  In (random_card rnd) create_deck.
Proof.
  apply count_card_In. rewrite create_deck_count.
  unfold random_card.
  destruct (Qltb (random1 rnd) float_0_1).
  - destruct (Qltb (random2 rnd) float_0_5); vm_compute; lia.
  - unfold py_choice.
    assert (Hc : (choice_color rnd mod length colors < 4)%nat)
      by (apply Nat.mod_upper_bound; discriminate).
    assert (Hv : (choice_value rnd mod length values < 13)%nat)
      by (apply Nat.mod_upper_bound; discriminate).
    remember (choice_color rnd mod length colors)%nat as i eqn:Ei. clear Ei.
    remember (choice_value rnd mod length values)%nat as j eqn:Ej. clear Ej.
    do 4 (destruct i as [|i];
          [do 13 (destruct j as [|j]; [vm_compute; lia|]); lia|]).
    lia.
Qed.

(** X2: whatever the random source delivers, the card synthesized by a
    draw is one of the cards of the standard deck: a wild or wild4 of
    colour wild, or a coloured "0".."9", skip, reverse or draw2; so its
    colour is wild exactly when its value is wild or wild4. *)
Theorem random_card_in_deck (rnd : DrawRandom) :
  In (random_card rnd) create_deck
  /\ deck_copies (random_card rnd) <> 0%nat
  /\ (color (random_card rnd) = wild
      <-> value (random_card rnd) = "wild" \/ value (random_card rnd) = "wild4").
Proof.
  split; [apply random_card_in_deck_helper|].
  split; [|apply random_card_shape].
  pose proof (random_card_in_deck_helper rnd) as H.
  apply count_card_In in H. rewrite create_deck_count in H. lia.
Qed.

(** ** Looking up and replacing stored games *)

Lemma find_game_id (gid : string) (db : Collection) (g : GameState) :
  List.find (fun g => String.eqb (game_id g) gid) db = Some g -> game_id g = gid.
Proof. intros H. apply find_some in H as [_ H]. now apply String.eqb_eq. Qed.

Lemma find_replace_first_same (gid : string) (g' : GameState) (db : Collection) :
  game_id g' = gid ->
  List.find (fun g => String.eqb (game_id g) gid) db <> None ->
  List.find (fun g => String.eqb (game_id g) gid) (replace_first gid g' db) = Some g'.
Proof.
  intros Hid. induction db as [|g db IH]; simpl; [congruence|].
  destruct (String.eqb (game_id g) gid) eqn:E; simpl.
  - intros _. now rewrite Hid, String.eqb_refl.
  - rewrite E. exact IH.
Qed.

Lemma find_replace_first_other (gid gid' : string) (g' : GameState) (db : Collection) :
  game_id g' = gid -> gid' <> gid ->
  List.find (fun g => String.eqb (game_id g) gid') (replace_first gid g' db)
  = List.find (fun g => String.eqb (game_id g) gid') db.
Proof.
  intros Hid Hne. induction db as [|g db IH]; simpl; [reflexivity|].
  destruct (String.eqb (game_id g) gid) eqn:E; simpl.
  - apply String.eqb_eq in E. rewrite Hid, E.
    apply not_eq_sym, String.eqb_neq in Hne. now rewrite Hne.
  - now rewrite IH.
Qed.

Lemma Forall_replace_first (P : GameState -> Prop) (gid : string)
    (g' : GameState) (db : Collection) :
  Forall P db -> P g' -> Forall P (replace_first gid g' db).
Proof.
  intros Hdb Hg. induction Hdb as [|g db Hp Hdb IH]; simpl; [constructor|].
  destruct (String.eqb (game_id g) gid); constructor; auto.
Qed.

Lemma find_Forall (P : GameState -> Prop) (gid : string) (db : Collection)
    (g : GameState) :
  Forall P db ->
  List.find (fun g => String.eqb (game_id g) gid) db = Some g -> P g.
Proof.
  intros Hdb H. apply find_some in H as [Hin _].
  rewrite Forall_forall in Hdb. apply Hdb. now apply list_elem_of_In.
Qed.

(** ** Accepted plays *)

Lemma play_card_step_Ok (game_state : GameState) (request : PlayCardRequest)
    (r : GameState * option string) :
  play_card_step game_state request = Ok r ->
  exists pos current_player card_in_hand,
    legal_play game_state request pos current_player card_in_hand.
Proof.
  unfold play_card_step, legal_play. intros H.
  destruct (game_over game_state); [discriminate|].
  destruct (py_position _ _) as [pos|] eqn:Hpos; [|discriminate].
  destruct (players game_state !! pos) as [p|] eqn:Hp; [|discriminate].
  destruct (String.eqb (id p) (play_player_id request)) eqn:Hid; [|discriminate].
  destruct (find_card (hand p) (card request)) as [idx|] eqn:Hc; [|discriminate].
  destruct (can_play_card (card request) (top_card game_state)); [|discriminate].
  apply String.eqb_eq in Hid. exists pos, p, idx. repeat split; auto.
Qed.

Lemma play_card_Ok (gid : string) (request : PlayCardRequest)
    (db db' : Collection) (resp : PlayResponse) :
  play_card gid request db = (db', Ok resp) ->
  exists game_state,
    List.find (fun g => String.eqb (game_id g) gid) db = Some game_state
    /\ play_card_step game_state request = Ok (play_game_state resp, action resp)
    /\ db' = replace_first gid (play_game_state resp) db.
Proof.
  intros H.
  destruct (List.find (fun g => String.eqb (game_id g) gid) db) as [g|] eqn:Hfind.
  - rewrite (play_card_found _ _ _ _ Hfind) in H.
    destruct (play_card_step g request) as [[g' a]|e] eqn:Hstep; [|discriminate].
    simpl in H. injection H as <- <-. exists g. simpl. auto.
  - rewrite (play_card_not_found _ _ _ Hfind) in H. discriminate.
Qed.

(** X3: [play_card] answers with success only for a legal play: the
    stored game is not over, the requester is the player the index
    addresses, the requested card is in that player's hand, and the card
    goes on the top card. *)
Theorem play_card_accepts_only_legal (gid : string) (request : PlayCardRequest)
    (db db' : Collection) (resp : PlayResponse) :
  play_card gid request db = (db', Ok resp) ->
  exists game_state pos current_player,
    List.find (fun g => String.eqb (game_id g) gid) db = Some game_state
    /\ game_over game_state = false
    /\ py_position (length (players game_state)) (current_player_index game_state)
       = Some pos
    /\ players game_state !! pos = Some current_player
    /\ id current_player = play_player_id request
    /\ In (card request) (hand current_player)
    /\ can_play_card (card request) (top_card game_state) = true.
Proof.
  intros H. apply play_card_Ok in H as (g & Hfind & Hstep & _).
  apply play_card_step_Ok in Hstep as (pos & p & idx & Ho & Hpos & Hp & Hid & Hc & Hplay).
  exists g, pos, p. repeat split; auto.
  apply find_card_Some in Hc. apply list_elem_of_In. eapply list_elem_of_lookup_2, Hc.
Qed.

Lemma play_card_accepts_only_legal_witness :
  exists game_state pos current_player,
    List.find (fun g => String.eqb (game_id g) "g6") [game_bob; game_eve]
    = Some game_state
    /\ game_over game_state = false
    /\ py_position (length (players game_state)) (current_player_index game_state)
       = Some pos
    /\ players game_state !! pos = Some current_player
    /\ id current_player = "p5"
    /\ In (mkCard red "1") (hand current_player)
    /\ can_play_card (mkCard red "1") (top_card game_state) = true.
Proof.
  eapply (play_card_accepts_only_legal "g6"
            (mkPlayCardRequest "p5" (mkCard red "1") None) [game_bob; game_eve]).
  reflexivity.
Defined.

(** X4: an accepted play moves exactly one card: the first copy of the
    requested card leaves the hand of the acting player (the requester,
    whom the index addresses), whose card_count follows, and lands on the discard pile as the new top card with its
    value unchanged (and its colour too unless it is wild-coloured); no
    other player is touched and draw_pile_count stays as it was, so a
    draw2 or wild4 deals no cards to anybody. *)
Theorem play_card_moves_one_card (gid : string) (request : PlayCardRequest)
    (db db' : Collection) (resp : PlayResponse) :
  play_card gid request db = (db', Ok resp) ->
  exists game_state pos current_player card_in_hand player' played_card,
    List.find (fun g => String.eqb (game_id g) gid) db = Some game_state
    /\ py_position (length (players game_state)) (current_player_index game_state)
       = Some pos
    /\ players game_state !! pos = Some current_player
    /\ id current_player = play_player_id request
    /\ hand current_player !! card_in_hand = Some (card request)
    /\ (forall j, (j < card_in_hand)%nat ->
                  hand current_player !! j <> Some (card request))
    /\ players (play_game_state resp) = <[pos := player']> (players game_state)
    /\ hand player' = delete card_in_hand (hand current_player)
    /\ card_count player' = Z.of_nat (length (hand current_player)) - 1
    /\ id player' = id current_player
    /\ name player' = name current_player
    /\ (forall j, j <> pos ->
                  players (play_game_state resp) !! j = players game_state !! j)
    /\ discard_pile (play_game_state resp) = discard_pile game_state ++ [played_card]
    /\ top_card (play_game_state resp) = played_card
    /\ value played_card = value (card request)
    /\ (color (card request) <> wild -> played_card = card request)
    /\ draw_pile_count (play_game_state resp) = draw_pile_count game_state
    /\ game_id (play_game_state resp) = game_id game_state.
Proof.
  intros H. apply play_card_Ok in H as (g & Hfind & Hstep & _).
  destruct (play_card_step_Ok _ _ _ Hstep) as (pos & p & idx & Hlegal).
  rewrite (play_card_step_legal _ _ _ _ _ Hlegal) in Hstep.
  destruct Hlegal as (_ & Hpos & Hp & Hpid & Hc & _).
  destruct (find_card_from_spec _ _ _ _ Hc) as (j & -> & Hj & Hfirst).
  simpl Nat.add in *.
  destruct (recolor (card request) (chosen_color request)) as [played|e] eqn:Hcol;
    [|discriminate].
  exists g, pos, p, j,
    (set_card_count (set_hand p (delete j (hand p)))
       (Z.of_nat (length (delete j (hand p))))), played.
  assert (Hlen : Z.of_nat (length (delete j (hand p))) = Z.of_nat (length (hand p)) - 1).
  { rewrite length_delete by (now exists (card request)).
    apply lookup_lt_Some in Hj. lia. }
  assert (Hsame : color (card request) <> wild -> played = card request).
  { intros Hw. unfold recolor in Hcol.
    destruct (Color_eqb (color (card request)) wild) eqn:E;
      [apply Color_eqb_eq in E; contradiction|congruence]. }
  pose proof (recolor_value _ _ _ Hcol) as Hval.
  cbv zeta in Hstep.
  destruct (length (delete j (hand p)) =? 0)%nat; injection Hstep as Hg _;
    rewrite <- Hg; simpl;
    repeat (split; [first [assumption | reflexivity]|]);
    try reflexivity.
  all: repeat (split; [first [assumption | reflexivity
                             | intros i Hi; now apply list_lookup_insert_ne]|]);
    reflexivity.
Qed.

Lemma play_card_moves_one_card_witness :
  exists game_state pos current_player card_in_hand player' played_card,
    List.find (fun g => String.eqb (game_id g) "g3") [game_wild] = Some game_state
    /\ py_position (length (players game_state)) (current_player_index game_state)
       = Some pos
    /\ players game_state !! pos = Some current_player
    /\ id current_player = "p4"
    /\ hand current_player !! card_in_hand = Some (mkCard wild "wild")
    /\ (forall j, (j < card_in_hand)%nat ->
                  hand current_player !! j <> Some (mkCard wild "wild"))
    /\ players (set_current_player_index
                  (set_last_action
                     (discard_state game_wild 1 dave 0 (mkCard green "wild"))
                     "Dave played Wild") 0)
       = <[pos := player']> (players game_state)
    /\ hand player' = delete card_in_hand (hand current_player)
    /\ card_count player' = Z.of_nat (length (hand current_player)) - 1
    /\ id player' = id current_player
    /\ name player' = name current_player
    /\ (forall j, j <> pos ->
          players (set_current_player_index
                     (set_last_action
                        (discard_state game_wild 1 dave 0 (mkCard green "wild"))
                        "Dave played Wild") 0) !! j
          = players game_state !! j)
    /\ discard_pile (set_current_player_index
                       (set_last_action
                          (discard_state game_wild 1 dave 0 (mkCard green "wild"))
                          "Dave played Wild") 0)
       = discard_pile game_state ++ [played_card]
    /\ top_card (set_current_player_index
                   (set_last_action
                      (discard_state game_wild 1 dave 0 (mkCard green "wild"))
                      "Dave played Wild") 0)
       = played_card
    /\ value played_card = "wild"
    /\ (wild <> wild -> played_card = mkCard wild "wild")
    /\ draw_pile_count (set_current_player_index
                          (set_last_action
                             (discard_state game_wild 1 dave 0 (mkCard green "wild"))
                             "Dave played Wild") 0)
       = draw_pile_count game_state
    /\ game_id (set_current_player_index
                  (set_last_action
                     (discard_state game_wild 1 dave 0 (mkCard green "wild"))
                     "Dave played Wild") 0)
       = game_id game_state.
Proof.
  apply (play_card_moves_one_card "g3"
           (mkPlayCardRequest "p4" (mkCard wild "wild") (Some "green")) [game_wild]
           [set_current_player_index
              (set_last_action
                 (discard_state game_wild 1 dave 0 (mkCard green "wild"))
                 "Dave played Wild") 0]
           (mkPlayResponse
              (set_current_player_index
                 (set_last_action
                    (discard_state game_wild 1 dave 0 (mkCard green "wild"))
                    "Dave played Wild") 0)
              (Some "wild"))).
  reflexivity.
Defined.

(** ** Well-formed games stay well-formed *)

Lemma action_direction_unit (c : Card) (d : Z) :
  d = 1 \/ d = -1 -> action_direction c d = 1 \/ action_direction c d = -1.
Proof.
  intros H. rewrite action_direction_table.
  destruct (String.eqb (value c) "reverse"); lia.
Qed.

Lemma play_card_step_ok (game_state game_state' : GameState)
    (request : PlayCardRequest) (tag : option string) :
  state_ok game_state ->
  play_card_step game_state request = Ok (game_state', tag) ->
  state_ok game_state'.
Proof.
  intros (Hidx & Hdir & _ & Hcounts & Hpile) Hstep.
  destruct (play_card_step_Ok _ _ _ Hstep) as (pos & p & idx & Hlegal).
  rewrite (play_card_step_legal _ _ _ _ _ Hlegal) in Hstep.
  destruct (recolor (card request) (chosen_color request)) as [played|e];
    [|discriminate].
  cbv zeta in Hstep.
  assert (Hnew : Forall (fun p => card_count p = Z.of_nat (length (hand p)))
                   (<[pos := set_card_count (set_hand p (delete idx (hand p)))
                               (Z.of_nat (length (delete idx (hand p))))]>
                      (players game_state))).
  { apply Forall_insert; [exact Hcounts|reflexivity]. }
  destruct (length (delete idx (hand p)) =? 0)%nat; injection Hstep as <- _;
    unfold state_ok; simpl; rewrite length_insert, last_snoc.
  - auto.
  - split; [apply Z.mod_pos_bound; lia|].
    split; [now apply action_direction_unit|]. auto.
Qed.

Lemma draw_card_step_ok (rnd : DrawRandom) (game_state : GameState)
    (request : DrawCardRequest) (r : DrawResponse) :
  state_ok game_state ->
  draw_card_step rnd game_state request = Ok r ->
  state_ok (draw_game_state r).
Proof.
  intros (Hidx & Hdir & Hlast & Hcounts & Hpile). unfold draw_card_step.
  destruct (game_over game_state); [discriminate|].
  destruct (py_position _ _) as [pos|]; [|discriminate].
  destruct (players game_state !! pos) as [p|]; [|discriminate].
  destruct (String.eqb (id p) (draw_player_id request)); [|discriminate].
  simpl negb. cbv iota zeta. intros [= <-].
  assert (Hnew : Forall (fun p => card_count p = Z.of_nat (length (hand p)))
                   (<[pos := set_card_count
                               (set_hand p (hand p ++ [random_card rnd]))
                               (Z.of_nat (length (hand p ++ [random_card rnd])))]>
                      (players game_state))).
  { apply Forall_insert; [exact Hcounts|reflexivity]. }
  unfold state_ok.
  destruct (can_play_card (random_card rnd) _); simpl; rewrite length_insert.
  - repeat split; auto; lia.
  - split; [apply Z.mod_pos_bound; lia|]. repeat split; auto; lia.
Qed.

(** X5: [play_card] keeps every stored game well-formed, whatever the
    request and whether it is accepted or refused: the index addresses a
    player, the direction is +1 or -1, the top card is the last card of
    the discard pile, every card_count is the length of its hand and
    draw_pile_count is not negative. *)
Theorem play_card_keeps_games_ok (gid : string) (request : PlayCardRequest)
    (db db' : Collection) (r : Result PlayResponse) :
  Forall state_ok db ->
  play_card gid request db = (db', r) ->
  Forall state_ok db'
  /\ (forall resp, r = Ok resp -> state_ok (play_game_state resp)).
Proof.
  intros Hdb H.
  destruct (List.find (fun g => String.eqb (game_id g) gid) db) as [g|] eqn:Hfind.
  - rewrite (play_card_found _ _ _ _ Hfind) in H.
    pose proof (find_Forall _ _ _ _ Hdb Hfind) as Hg.
    destruct (play_card_step g request) as [[g' a]|e] eqn:Hstep.
    + pose proof (play_card_step_ok _ _ _ _ Hg Hstep) as Hg'.
      simpl in H. injection H as <- <-. split.
      * now apply Forall_replace_first.
      * now intros resp [= <-].
    + injection H as <- <-. split; [exact Hdb|discriminate].
  - rewrite (play_card_not_found _ _ _ Hfind) in H. injection H as <- <-.
    split; [exact Hdb|discriminate].
Qed.

Lemma state_ok_game_bob : state_ok game_bob.
Proof.
  unfold state_ok. simpl. repeat split; try lia; auto; repeat constructor.
Qed.

Lemma play_card_keeps_games_ok_witness :
  Forall state_ok
    (fst (play_card "g4" (mkPlayCardRequest "p2" (mkCard blue "3") None) [game_bob]))
  /\ (forall resp,
        snd (play_card "g4" (mkPlayCardRequest "p2" (mkCard blue "3") None) [game_bob])
        = Ok resp ->
        state_ok (play_game_state resp)).
Proof.
  apply (play_card_keeps_games_ok "g4"
           (mkPlayCardRequest "p2" (mkCard blue "3") None) [game_bob]).
  - constructor; [exact state_ok_game_bob|constructor].
  - reflexivity.
Defined.

(** X6: [draw_card] keeps every stored game well-formed, whatever the
    random source delivers and whether the draw is accepted or refused. *)
Theorem draw_card_keeps_games_ok (rnd : DrawRandom) (gid : string)
    (request : DrawCardRequest) (db db' : Collection) (r : Result DrawResponse) :
  Forall state_ok db ->
  draw_card rnd gid request db = (db', r) ->
  Forall state_ok db'
  /\ (forall resp, r = Ok resp -> state_ok (draw_game_state resp)).
Proof.
  intros Hdb H.
  destruct (List.find (fun g => String.eqb (game_id g) gid) db) as [g|] eqn:Hfind.
  - rewrite (draw_card_found _ _ _ _ _ Hfind) in H.
    pose proof (find_Forall _ _ _ _ Hdb Hfind) as Hg.
    destruct (draw_card_step rnd g request) as [resp|e] eqn:Hstep.
    + pose proof (draw_card_step_ok _ _ _ _ Hg Hstep) as Hg'.
      injection H as <- <-. split.
      * now apply Forall_replace_first.
      * now intros resp' [= <-].
    + injection H as <- <-. split; [exact Hdb|discriminate].
  - rewrite (draw_card_not_found _ _ _ _ Hfind) in H. injection H as <- <-.
    split; [exact Hdb|discriminate].
Qed.

Lemma draw_card_keeps_games_ok_witness :
  Forall state_ok
    (fst (draw_card (mkDrawRandom (1 # 2) (1 # 4) 2 11) "g4"
            (mkDrawCardRequest "p2") [game_bob]))
  /\ (forall resp,
        snd (draw_card (mkDrawRandom (1 # 2) (1 # 4) 2 11) "g4"
               (mkDrawCardRequest "p2") [game_bob])
        = Ok resp ->
        state_ok (draw_game_state resp)).
Proof.
  apply (draw_card_keeps_games_ok (mkDrawRandom (1 # 2) (1 # 4) 2 11) "g4"
           (mkDrawCardRequest "p2") [game_bob]).
  - constructor; [exact state_ok_game_bob|constructor].
  - reflexivity.
Defined.

(** ** Calling UNO *)

(** X7: [call_uno] succeeds exactly when the first player with the given
    id holds exactly one card, whoever's turn it is; and whatever it
    answers, the addressed game keeps every field but last_action, every
    other game is served as before, and well-formed games stay so. *)
Theorem call_uno_only_last_action (gid : string) (request : UnoCallRequest)
    (db db' : Collection) (r : Result string) (game_state : GameState) :
  List.find (fun g => String.eqb (game_id g) gid) db = Some game_state ->
  call_uno gid request db = (db', r) ->
  (r = Ok "UNO!"
   <-> exists p, find_player (players game_state) (uno_player_id request) = Some p
                 /\ length (hand p) = 1%nat)
  /\ (forall e, r = Raise e -> db' = db)
  /\ (exists game_state',
        List.find (fun g => String.eqb (game_id g) gid) db' = Some game_state'
        /\ game_id game_state' = game_id game_state
        /\ players game_state' = players game_state
        /\ current_player_index game_state' = current_player_index game_state
        /\ direction game_state' = direction game_state
        /\ discard_pile game_state' = discard_pile game_state
        /\ top_card game_state' = top_card game_state
        /\ draw_pile_count game_state' = draw_pile_count game_state
        /\ winner game_state' = winner game_state
        /\ game_over game_state' = game_over game_state)
  /\ (forall gid', gid' <> gid ->
        List.find (fun g => String.eqb (game_id g) gid') db'
        = List.find (fun g => String.eqb (game_id g) gid') db)
  /\ (Forall state_ok db -> Forall state_ok db').
Proof.
  intros Hfind H. pose proof (find_game_id _ _ _ Hfind) as Hid.
  unfold call_uno, bind, find_one, raise, replace_one, ret in H. rewrite Hfind in H.
  assert (Hsame : exists game_state',
        List.find (fun g => String.eqb (game_id g) gid) db = Some game_state'
        /\ game_id game_state' = game_id game_state
        /\ players game_state' = players game_state
        /\ current_player_index game_state' = current_player_index game_state
        /\ direction game_state' = direction game_state
        /\ discard_pile game_state' = discard_pile game_state
        /\ top_card game_state' = top_card game_state
        /\ draw_pile_count game_state' = draw_pile_count game_state
        /\ winner game_state' = winner game_state
        /\ game_over game_state' = game_over game_state).
  { exists game_state. repeat split; auto. }
  destruct (find_player (players game_state) (uno_player_id request)) as [p|] eqn:Hp.
  - destruct (length (hand p) =? 1)%nat eqn:Hone.
    + apply Nat.eqb_eq in Hone. injection H as <- <-.
      split; [split; [intros _; now exists p|reflexivity]|].
      split; [discriminate|].
      split.
      { exists (set_last_action game_state (name p ++ " called UNO!")).
        split; [|repeat split].
        apply find_replace_first_same; [exact Hid|congruence]. }
      split.
      { intros gid' Hne. now apply find_replace_first_other. }
      intros Hdb. apply Forall_replace_first; [exact Hdb|].
      apply (find_Forall _ _ _ _ Hdb Hfind).
    + apply Nat.eqb_neq in Hone. injection H as <- <-.
      split; [split; [discriminate|intros (p' & [= <-] & Hl); contradiction]|].
      auto.
  - injection H as <- <-.
    split; [split; [discriminate|intros (p' & Hp' & _); discriminate]|].
    auto.
Qed.

Lemma call_uno_only_last_action_witness :
  (Ok "UNO!" = Ok "UNO!"
   <-> exists p, find_player (players game_finished) "p3" = Some p
                 /\ length (hand p) = 1%nat)
  /\ (forall e, Ok "UNO!" = Raise e ->
        [game_bob; set_last_action game_finished "Carol called UNO!"]
        = [game_bob; game_finished])
  /\ (exists game_state',
        List.find (fun g => String.eqb (game_id g) "g5")
          [game_bob; set_last_action game_finished "Carol called UNO!"]
        = Some game_state'
        /\ game_id game_state' = game_id game_finished
        /\ players game_state' = players game_finished
        /\ current_player_index game_state' = current_player_index game_finished
        /\ direction game_state' = direction game_finished
        /\ discard_pile game_state' = discard_pile game_finished
        /\ top_card game_state' = top_card game_finished
        /\ draw_pile_count game_state' = draw_pile_count game_finished
        /\ winner game_state' = winner game_finished
        /\ game_over game_state' = game_over game_finished)
  /\ (forall gid', gid' <> "g5" ->
        List.find (fun g => String.eqb (game_id g) gid')
          [game_bob; set_last_action game_finished "Carol called UNO!"]
        = List.find (fun g => String.eqb (game_id g) gid') [game_bob; game_finished])
  /\ (Forall state_ok [game_bob; game_finished] ->
      Forall state_ok [game_bob; set_last_action game_finished "Carol called UNO!"]).
Proof.
  apply (call_uno_only_last_action "g5" (mkUnoCallRequest "p3")
           [game_bob; game_finished]); reflexivity.
Defined.

(** ** Unknown game ids *)

Lemma play_card_step_not_404 (game_state : GameState) (request : PlayCardRequest)
    (detail : string) :
  play_card_step game_state request <> Raise (HTTPException 404 detail).
Proof.
  unfold play_card_step.
  destruct (game_over game_state); [discriminate|].
  destruct (py_position _ _) as [pos|]; [|discriminate].
  destruct (players game_state !! pos) as [p|]; [|discriminate].
  destruct (String.eqb (id p) (play_player_id request)); [|discriminate].
  destruct (find_card (hand p) (card request)) as [idx|]; [|discriminate].
  destruct (can_play_card (card request) (top_card game_state)); [|discriminate].
  simpl negb. cbv iota.
  destruct (hand p !! idx) as [c|]; [|discriminate].
  unfold recolor. destruct (Color_eqb (color c) wild).
  - destruct (truthy (chosen_color request)) as [s|].
    + destruct (parse_color s); [|discriminate].
      cbv zeta. destruct (_ =? _)%nat; discriminate.
    + cbv zeta. destruct (_ =? _)%nat; discriminate.
  - cbv zeta. destruct (_ =? _)%nat; discriminate.
Qed.

Lemma draw_card_step_not_404 (rnd : DrawRandom) (game_state : GameState)
    (request : DrawCardRequest) (detail : string) :
  draw_card_step rnd game_state request <> Raise (HTTPException 404 detail).
Proof.
  unfold draw_card_step.
  destruct (game_over game_state); [discriminate|].
  destruct (py_position _ _) as [pos|]; [|discriminate].
  destruct (players game_state !! pos) as [p|]; [|discriminate].
  destruct (String.eqb (id p) (draw_player_id request)); discriminate.
Qed.

(** X8: each of the four handlers that take a game id answers 404 "Game
    not found" exactly when no stored game has that id, and then leaves
    the collection as it is. *)
Theorem game_not_found_iff (rnd : DrawRandom) (gid : string) (db : Collection)
    (play_request : PlayCardRequest) (draw_request : DrawCardRequest)
    (uno_request : UnoCallRequest) :
  let missing := List.find (fun g => String.eqb (game_id g) gid) db = None in
  let not_found (A : Type) (out : Collection * Result A) :=
    exists db', out = (db', Raise (HTTPException 404 "Game not found")) in
  (missing <-> not_found _ (get_game_state gid db))
  /\ (missing <-> not_found _ (play_card gid play_request db))
  /\ (missing <-> not_found _ (draw_card rnd gid draw_request db))
  /\ (missing <-> not_found _ (call_uno gid uno_request db))
  /\ (missing ->
      get_game_state gid db = (db, Raise (HTTPException 404 "Game not found"))
      /\ play_card gid play_request db
         = (db, Raise (HTTPException 404 "Game not found"))
      /\ draw_card rnd gid draw_request db
         = (db, Raise (HTTPException 404 "Game not found"))
      /\ call_uno gid uno_request db
         = (db, Raise (HTTPException 404 "Game not found"))).
Proof.
  intros missing not_found. unfold missing, not_found.
  destruct (List.find (fun g => String.eqb (game_id g) gid) db) as [g|] eqn:Hfind.
  - repeat split; try discriminate; intros (db' & H); exfalso.
    + unfold get_game_state, bind, find_one, ret in H. rewrite Hfind in H. discriminate.
    + rewrite (play_card_found _ _ _ _ Hfind) in H.
      destruct (play_card_step g play_request) eqn:E; [discriminate|].
      injection H as _ ->. now apply play_card_step_not_404 in E.
    + rewrite (draw_card_found _ _ _ _ _ Hfind) in H.
      destruct (draw_card_step rnd g draw_request) eqn:E; [discriminate|].
      injection H as _ ->. now apply draw_card_step_not_404 in E.
    + unfold call_uno, bind, find_one, raise, replace_one, ret in H.
      rewrite Hfind in H.
      destruct (find_player _ _) as [p|]; [|discriminate].
      destruct (_ =? _)%nat; discriminate.
  - assert (Hget : get_game_state gid db
                   = (db, Raise (HTTPException 404 "Game not found"))).
    { unfold get_game_state, bind, find_one, raise. now rewrite Hfind. }
    assert (Huno : call_uno gid uno_request db
                   = (db, Raise (HTTPException 404 "Game not found"))).
    { unfold call_uno, bind, find_one, raise. now rewrite Hfind. }
    rewrite Hget, Huno, (play_card_not_found _ _ _ Hfind),
      (draw_card_not_found _ _ _ _ Hfind).
    repeat split; eauto.
Qed.

(** ** The cards of a new game *)

Lemma pop_many_Ok (n : nat) :
  forall (deck h d : list Card),
    pop_many n deck = Ok (h, d) -> deck = d ++ rev h /\ length h = n.
Proof.
  induction n as [|n IH]; intros deck h d H; simpl in H.
  - injection H as <- <-. simpl. now rewrite app_nil_r.
  - destruct (py_pop deck) as [[c r]|] eqn:Hpop; [|discriminate].
    destruct (pop_many n r) as [[h' d']|e] eqn:Hrest; [|discriminate].
    injection H as <- <-. apply py_pop_Some in Hpop as ->.
    apply IH in Hrest as [-> <-]. simpl. now rewrite <- app_assoc.
Qed.

Lemma deal_players_cards (uuid4 : nat -> string) (player_names : list string) :
  forall (k : nat) (deck : list Card) (ps : list Player) (d : list Card),
    deal_players uuid4 player_names k deck = Ok (ps, d) ->
    Permutation (flat_map hand ps ++ d) deck.
Proof.
  induction player_names as [|pname rest IH]; intros k deck ps d H;
    cbn [deal_players] in H.
  - injection H as <- <-. reflexivity.
  - destruct (pop_many 7 deck) as [[h deck']|e] eqn:Hpop; [|discriminate].
    destruct (deal_players uuid4 rest (S k) deck') as [[ps' d']|e] eqn:Hrest;
      [|discriminate].
    injection H as <- <-. apply pop_many_Ok in Hpop as [-> _].
    apply IH in Hrest. simpl. rewrite <- app_assoc, Hrest.
    rewrite Permutation_app_comm. apply Permutation_app_head.
    apply Permutation_rev.
Qed.

Lemma deal_cards (shuffle : nat -> list Card -> list Card) (uuid4 : nat -> string)
    (player_names : list string) (ps : list Player) (top : Card) (deck : list Card) :
  (forall k l, Permutation l (shuffle k l)) ->
  deal shuffle uuid4 player_names = Ok (ps, top, deck) ->
  Permutation (flat_map hand ps ++ top :: deck) create_deck.
Proof.
  intros Hperm H. unfold deal in H.
  destruct (deal_players uuid4 player_names 0%nat (shuffle 0%nat create_deck))
    as [[ps' d]|e] eqn:Hdeal; [|discriminate].
  destruct (py_pop d) as [[t r]|] eqn:Hpop; [|discriminate].
  injection H as <- <- <-. apply py_pop_Some in Hpop as ->.
  apply deal_players_cards in Hdeal.
  rewrite (Hperm 0%nat create_deck), <- Hdeal.
  apply Permutation_app_head. apply Permutation_cons_append.
Qed.

Lemma create_new_game_Ok (shuffle : nat -> list Card -> list Card)
    (uuid4 : nat -> string) (fuel : nat) (player_names : list string)
    (db db' : Collection) (g : GameState) :
  create_new_game shuffle uuid4 fuel player_names db = Some (db', Ok g) ->
  exists ps top deck t d,
    (2 <= length player_names <= 4)%nat
    /\ deal shuffle uuid4 player_names = Ok (ps, top, deck)
    /\ pick_top_card shuffle fuel 1 deck top = Some (Ok (t, d))
    /\ g = mkGameState (uuid4 (length player_names)) ps 0 1 [t] t
             (Z.of_nat (length d)) None false (Some "Game started")
    /\ db' = db ++ [g].
Proof.
  unfold create_new_game. intros H.
  destruct ((length player_names <? 2)%nat || (4 <? length player_names)%nat) eqn:Hn;
    [discriminate|].
  apply orb_false_iff in Hn as [H2 H4].
  apply Nat.ltb_ge in H2. apply Nat.ltb_ge in H4.
  destruct (deal shuffle uuid4 player_names) as [[[ps top] deck]|e] eqn:Hdeal;
    [|discriminate].
  destruct (pick_top_card shuffle fuel 1 deck top) as [[[t d]|e]|] eqn:Hpick;
    try discriminate.
  injection H as <- <-. exists ps, top, deck, t, d. repeat split; auto.
Qed.

Lemma numbered_card (c : Card) :
  In c create_deck ->
  is_action_value (value c) = false ->
  In (value c) ("0" :: number_values) /\ color c <> wild.
Proof.
  intros Hin Hplain. pose proof (create_deck_values c Hin) as Hv.
  apply count_card_In in Hin. rewrite create_deck_count in Hin.
  destruct c as [col v]. simpl in *.
  do 10 (destruct Hv as [<-|Hv];
         [split; [simpl; tauto|intros ->; vm_compute in Hin; lia]|]).
  repeat (destruct Hv as [<-|Hv]; [discriminate Hplain|]). destruct Hv.
Qed.

(** X9: every game that [create_new_game] returns is well-formed and is
    dealt from one standard deck: the players' hands, the top card and a
    remaining pile of draw_pile_count cards together are exactly the 108
    cards of [create_deck]; the top card is a coloured card with a value
    from "0" to "9"; and the games stored before stay well-formed. *)
Theorem create_new_game_cards (shuffle : nat -> list Card -> list Card)
    (uuid4 : nat -> string) (fuel : nat) (player_names : list string)
    (db db' : Collection) (g : GameState) :
  (forall k l, Permutation l (shuffle k l)) ->
  create_new_game shuffle uuid4 fuel player_names db = Some (db', Ok g) ->
  state_ok g
  /\ (exists pile : list Card,
        Permutation (flat_map hand (players g) ++ top_card g :: pile) create_deck
        /\ draw_pile_count g = Z.of_nat (length pile))
  /\ In (value (top_card g)) ("0" :: number_values)
  /\ color (top_card g) <> wild
  /\ (Forall state_ok db -> Forall state_ok db').
Proof.
  intros Hperm H.
  apply create_new_game_Ok in H as (ps & top & deck & t & d & Hn & Hdeal & Hpick & -> & ->).
  destruct (pick_top_card_result shuffle Hperm _ _ _ _ _ Hpick)
    as (t' & d' & [= <- <-] & Hplain & Hp).
  pose proof (deal_cards _ _ _ _ _ _ Hperm Hdeal) as Hcards.
  assert (Hall : Permutation (flat_map hand ps ++ t :: d) create_deck).
  { now rewrite Hp. }
  destruct (deal_enough shuffle uuid4 Hperm player_names)
    as (ps' & top' & deck' & Hdeal' & Hnames & _ & Hhands & _); [lia|].
  rewrite Hdeal in Hdeal'. injection Hdeal' as <- <- <-.
  assert (Hok : state_ok
                  (mkGameState (uuid4 (length player_names)) ps 0 1 [t] t
                     (Z.of_nat (length d)) None false (Some "Game started"))).
  { unfold state_ok. simpl.
    assert (length ps = length player_names) by (rewrite <- Hnames; now rewrite length_map).
    repeat split; try lia; auto.
    eapply Forall_impl; [exact Hhands|]. intros p [Hl ->]. now rewrite Hl. }
  assert (Hin : In t create_deck).
  { eapply Permutation_in; [exact Hall|]. apply in_or_app. right. now left. }
  destruct (numbered_card t Hin Hplain) as [Hnum Hcol].
  simpl. split; [exact Hok|].
  split; [exists d; auto|].
  split; [exact Hnum|]. split; [exact Hcol|].
  intros Hdb. apply Forall_app. split; [exact Hdb|]. now constructor.
Qed.

Lemma create_new_game_cards_witness :
  match create_new_game shuffle_id uuid_of_nat 18 ["Ann"; "Ben"; "Cyd"] [game_bob] with
  | Some (db', Ok g) =>
      state_ok g
      /\ (exists pile : list Card,
            Permutation (flat_map hand (players g) ++ top_card g :: pile) create_deck
            /\ draw_pile_count g = Z.of_nat (length pile))
      /\ In (value (top_card g)) ("0" :: number_values)
      /\ color (top_card g) <> wild
      /\ (Forall state_ok [game_bob] -> Forall state_ok db')
  | _ => False
  end.
Proof.
  destruct (create_new_game shuffle_id uuid_of_nat 18 ["Ann"; "Ben"; "Cyd"] [game_bob])
    as [[db' [g|e]]|] eqn:E.
  - apply (create_new_game_cards shuffle_id uuid_of_nat 18 ["Ann"; "Ben"; "Cyd"]
             [game_bob] db' g); [intros k l; apply Permutation_refl|exact E].
  - vm_compute in E. discriminate.
  - vm_compute in E. discriminate.
Defined.

(** ** Reading games back *)

Lemma find_app_new (gid : string) (db : Collection) (g : GameState) :
  List.find (fun g => String.eqb (game_id g) gid) (db ++ [g])
  = match List.find (fun g => String.eqb (game_id g) gid) db with
    | Some g0 => Some g0
    | None => if String.eqb (game_id g) gid then Some g else None
    end.
Proof.
  induction db as [|g0 db IH]; simpl; [reflexivity|].
  now destruct (String.eqb (game_id g0) gid).
Qed.

Lemma get_game_state_found (gid : string) (db : Collection) (g : GameState) :
  List.find (fun g => String.eqb (game_id g) gid) db = Some g ->
  get_game_state gid db = (db, Ok g).
Proof. intros H. unfold get_game_state, bind, find_one, ret. now rewrite H. Qed.

(** X10: a game returned by [create_new_game] is appended to the
    collection; every game that could be read before is read back
    unchanged, and the new game is read back under its id provided no
    stored game already had that id (otherwise the older game is what
    [get_game_state] keeps returning). *)
Theorem create_then_get (shuffle : nat -> list Card -> list Card)
    (uuid4 : nat -> string) (fuel : nat) (player_names : list string)
    (db db' : Collection) (g : GameState) :
  create_new_game shuffle uuid4 fuel player_names db = Some (db', Ok g) ->
  db' = db ++ [g]
  /\ game_id g = uuid4 (length player_names)
  /\ (forall gid g0,
        get_game_state gid db = (db, Ok g0) -> get_game_state gid db' = (db', Ok g0))
  /\ (List.find (fun g0 => String.eqb (game_id g0) (game_id g)) db = None ->
      get_game_state (game_id g) db' = (db', Ok g)).
Proof.
  intros H.
  apply create_new_game_Ok in H as (ps & top & deck & t & d & _ & _ & _ & Hg & ->).
  split; [reflexivity|]. split; [now rewrite Hg|]. split.
  - intros gid g0 Hget. apply get_game_state_found. rewrite find_app_new.
    unfold get_game_state, bind, find_one, ret, raise in Hget.
    destruct (List.find (fun g => String.eqb (game_id g) gid) db); [|discriminate].
    now injection Hget as ->.
  - intros Hnone. apply get_game_state_found.
    now rewrite find_app_new, Hnone, String.eqb_refl.
Qed.

Lemma create_then_get_witness :
  match create_new_game shuffle_id uuid_of_nat 18 ["Ann"; "Ben"] [game_bob] with
  | Some (db', Ok g) =>
      db' = [game_bob] ++ [g]
      /\ game_id g = uuid_of_nat 2
      /\ (forall gid g0,
            get_game_state gid [game_bob] = ([game_bob], Ok g0) ->
            get_game_state gid db' = (db', Ok g0))
      /\ (List.find (fun g0 => String.eqb (game_id g0) (game_id g)) [game_bob] = None ->
          get_game_state (game_id g) db' = (db', Ok g))
  | _ => False
  end.
Proof.
  destruct (create_new_game shuffle_id uuid_of_nat 18 ["Ann"; "Ben"] [game_bob])
    as [[db' [g|e]]|] eqn:E.
  - apply (create_then_get shuffle_id uuid_of_nat 18 ["Ann"; "Ben"] [game_bob] db' g).
    exact E.
  - vm_compute in E. discriminate.
  - vm_compute in E. discriminate.
Defined.

Lemma play_card_step_game_id (game_state game_state' : GameState)
    (request : PlayCardRequest) (tag : option string) :
  play_card_step game_state request = Ok (game_state', tag) ->
  game_id game_state' = game_id game_state.
Proof.
  intros Hstep.
  destruct (play_card_step_Ok _ _ _ Hstep) as (pos & p & idx & Hlegal).
  rewrite (play_card_step_legal _ _ _ _ _ Hlegal) in Hstep.
  destruct (recolor (card request) (chosen_color request)); [|discriminate].
  cbv zeta in Hstep.
  destruct (_ =? _)%nat; injection Hstep as <- _; reflexivity.
Qed.

Lemma draw_card_Ok (rnd : DrawRandom) (gid : string) (request : DrawCardRequest)
    (db db' : Collection) (resp : DrawResponse) :
  draw_card rnd gid request db = (db', Ok resp) ->
  exists game_state,
    List.find (fun g => String.eqb (game_id g) gid) db = Some game_state
    /\ draw_card_step rnd game_state request = Ok resp
    /\ db' = replace_first gid (draw_game_state resp) db.
Proof.
  intros H.
  destruct (List.find (fun g => String.eqb (game_id g) gid) db) as [g|] eqn:Hfind.
  - rewrite (draw_card_found _ _ _ _ _ Hfind) in H.
    destruct (draw_card_step rnd g request) as [r|e] eqn:Hstep; [|discriminate].
    injection H as <- <-. exists g. auto.
  - rewrite (draw_card_not_found _ _ _ _ Hfind) in H. discriminate.
Qed.

Lemma draw_card_step_game_id (rnd : DrawRandom) (game_state : GameState)
    (request : DrawCardRequest) (resp : DrawResponse) :
  draw_card_step rnd game_state request = Ok resp ->
  game_id (draw_game_state resp) = game_id game_state.
Proof.
  unfold draw_card_step.
  destruct (game_over game_state); [discriminate|].
  destruct (py_position _ _) as [pos|]; [|discriminate].
  destruct (players game_state !! pos) as [p|]; [|discriminate].
  destruct (String.eqb (id p) (draw_player_id request)); [|discriminate].
  simpl negb. cbv iota zeta. intros [= <-].
  destruct (can_play_card _ _); reflexivity.
Qed.

(** X11: the game state an accepted play or draw answers with is the one
    stored: reading the game back returns exactly that state, and no game
    stored under another id is affected. *)
Theorem accepted_request_is_stored (rnd : DrawRandom) (gid : string)
    (db db' : Collection) :
  (forall request resp,
      play_card gid request db = (db', Ok resp) ->
      get_game_state gid db' = (db', Ok (play_game_state resp))
      /\ forall gid', gid' <> gid ->
           get_game_state gid' db' = (db', snd (get_game_state gid' db)))
  /\ (forall request resp,
        draw_card rnd gid request db = (db', Ok resp) ->
        get_game_state gid db' = (db', Ok (draw_game_state resp))
        /\ forall gid', gid' <> gid ->
             get_game_state gid' db' = (db', snd (get_game_state gid' db))).
Proof.
  assert (Hother : forall g' gid',
             game_id g' = gid -> gid' <> gid ->
             get_game_state gid' (replace_first gid g' db)
             = (replace_first gid g' db, snd (get_game_state gid' db))).
  { intros g' gid' Hid Hne. unfold get_game_state, bind, find_one, ret, raise.
    rewrite (find_replace_first_other _ _ _ _ Hid Hne).
    now destruct (List.find (fun g => String.eqb (game_id g) gid') db). }
  split; intros request resp H.
  - apply play_card_Ok in H as (g & Hfind & Hstep & ->).
    pose proof (play_card_step_game_id _ _ _ _ Hstep) as Hid.
    rewrite (find_game_id _ _ _ Hfind) in Hid.
    split; [|intros gid' Hne; now apply Hother].
    apply get_game_state_found, find_replace_first_same; [exact Hid|congruence].
  - apply draw_card_Ok in H as (g & Hfind & Hstep & ->).
    pose proof (draw_card_step_game_id _ _ _ _ Hstep) as Hid.
    rewrite (find_game_id _ _ _ Hfind) in Hid.
    split; [|intros gid' Hne; now apply Hother].
    apply get_game_state_found, find_replace_first_same; [exact Hid|congruence].
Qed.

Lemma accepted_request_is_stored_witness :
  get_game_state "g4"
    (fst (play_card "g4" (mkPlayCardRequest "p2" (mkCard blue "3") None)
            [game_eve; game_bob]))
  = (fst (play_card "g4" (mkPlayCardRequest "p2" (mkCard blue "3") None)
            [game_eve; game_bob]),
     Ok (set_current_player_index
           (set_last_action (discard_state game_bob 1 bob 0 (mkCard blue "3"))
              "Bob played blue 3") 2)).
Proof.
  apply (proj1 (accepted_request_is_stored (mkDrawRandom (1 # 2) (1 # 4) 2 11) "g4"
                  [game_eve; game_bob] _)
           (mkPlayCardRequest "p2" (mkCard blue "3") None)
           (mkPlayResponse
              (set_current_player_index
                 (set_last_action (discard_state game_bob 1 bob 0 (mkCard blue "3"))
                    "Bob played blue 3") 2) None)).
  reflexivity.
Defined.

(** ** After a win *)

Lemma action_tag_not_win (c : Card) : action_tag c <> Some "win".
Proof.
  unfold action_tag.
  repeat match goal with |- context [if ?b then _ else _] => destruct b end;
    discriminate.
Qed.

(** X12: a play is answered with the tag "win" exactly when it leaves the
    stored game over, with the acting player's hand empty and that
    player's name as winner; from then on every play and every draw on
    that game is refused with "Game is over" and the collection no longer
    changes. *)
Theorem win_is_final (gid : string) (request : PlayCardRequest)
    (db db' : Collection) (resp : PlayResponse) :
  play_card gid request db = (db', Ok resp) ->
  (action resp = Some "win" <-> game_over (play_game_state resp) = true)
  /\ (action resp = Some "win" ->
      (exists p,
          In p (players (play_game_state resp))
          /\ id p = play_player_id request
          /\ hand p = []
          /\ winner (play_game_state resp) = Some (name p))
      /\ forall rnd request' draw_request,
          play_card gid request' db' = (db', Raise (HTTPException 400 "Game is over"))
          /\ draw_card rnd gid draw_request db'
             = (db', Raise (HTTPException 400 "Game is over"))).
Proof.
  intros H. apply play_card_Ok in H as (g & Hfind & Hstep & ->).
  pose proof (play_card_step_game_id _ _ _ _ Hstep) as Hid.
  rewrite (find_game_id _ _ _ Hfind) in Hid.
  assert (Hstored : List.find (fun g => String.eqb (game_id g) gid)
                      (replace_first gid (play_game_state resp) db)
                    = Some (play_game_state resp)).
  { apply find_replace_first_same; [exact Hid|congruence]. }
  destruct (play_card_step_Ok _ _ _ Hstep) as (pos & p & idx & Hlegal).
  rewrite (play_card_step_legal _ _ _ _ _ Hlegal) in Hstep.
  destruct Hlegal as (Hover & _ & Hp & Hpid & _).
  destruct (recolor (card request) (chosen_color request)) as [played|e];
    [|discriminate].
  cbv zeta in Hstep.
  destruct (length (delete idx (hand p)) =? 0)%nat eqn:Hempty;
    injection Hstep as Hg Ha.
  - assert (Hover' : game_over (play_game_state resp) = true) by now rewrite <- Hg.
    split; [split; auto|]. intros _. split.
    + exists (set_card_count (set_hand p (delete idx (hand p)))
                (Z.of_nat (length (delete idx (hand p))))).
      rewrite <- Hg. simpl. repeat split; auto.
      * apply list_elem_of_In. eapply list_elem_of_lookup_2.
        apply list_lookup_insert_eq. eapply lookup_lt_Some, Hp.
      * apply Nat.eqb_eq in Hempty. now destruct (delete idx (hand p)).
    + intros rnd request' draw_request. split.
      * now apply play_card_game_over with (play_game_state resp).
      * now apply draw_card_game_over with (play_game_state resp).
  - assert (Hover' : game_over (play_game_state resp) = false)
      by (rewrite <- Hg; exact Hover).
    assert (Htag : action resp <> Some "win")
      by (rewrite <- Ha; apply action_tag_not_win).
    split; [split; [contradiction|congruence]|contradiction].
Qed.

Lemma win_is_final_witness :
  (Some "win" = Some "win"
   <-> game_over
         (set_last_action
            (set_game_over
               (set_winner (discard_state game_last_card 0 alice 0 (mkCard red "skip"))
                  (Some "Alice")) true) "Alice wins!") = true).
Proof.
  apply (win_is_final "g1" (mkPlayCardRequest "p1" (mkCard red "skip") None)
           [game_last_card]
           [set_last_action
              (set_game_over
                 (set_winner (discard_state game_last_card 0 alice 0 (mkCard red "skip"))
                    (Some "Alice")) true) "Alice wins!"]
           (mkPlayResponse
              (set_last_action
                 (set_game_over
                    (set_winner
                       (discard_state game_last_card 0 alice 0 (mkCard red "skip"))
                       (Some "Alice")) true) "Alice wins!")
              (Some "win"))).
  reflexivity.
Defined.

(** ** Drawing, then playing *)

Lemma find_card_In (hand : list Card) (c : Card) :
  In c hand -> exists idx, find_card hand c = Some idx.
Proof.
  intros Hin. destruct (find_card hand c) as [idx|] eqn:E; [eauto|].
  now apply find_card_None in E.
Qed.

Lemma recolor_None (c : Card) : recolor c None = Ok c.
Proof. unfold recolor. now destruct (Color_eqb (color c) wild). Qed.

(** X13: when a draw reports the drawn card as playable, the turn has not
    moved, and the same player can play that card at once: the play (with
    no chosen colour) is accepted and the drawn card becomes the top
    card. *)
Theorem drawn_card_can_be_played (rnd : DrawRandom) (gid : string)
    (request : DrawCardRequest) (db db' : Collection) (resp : DrawResponse) :
  draw_card rnd gid request db = (db', Ok resp) ->
  can_play resp = true ->
  exists db'' resp',
    play_card gid (mkPlayCardRequest (draw_player_id request) (drawn_card resp) None) db'
    = (db'', Ok resp')
    /\ top_card (play_game_state resp') = drawn_card resp.
Proof.
  intros H Hplayable. apply draw_card_Ok in H as (g & Hfind & Hstep & ->).
  pose proof (draw_card_step_game_id _ _ _ _ Hstep) as Hid.
  rewrite (find_game_id _ _ _ Hfind) in Hid.
  assert (Hstored : List.find (fun g => String.eqb (game_id g) gid)
                      (replace_first gid (draw_game_state resp) db)
                    = Some (draw_game_state resp)).
  { apply find_replace_first_same; [exact Hid|congruence]. }
  rewrite (play_card_found _ _ _ _ Hstored).
  unfold draw_card_step in Hstep.
  destruct (game_over g) eqn:Hover; [discriminate|].
  destruct (py_position _ _) as [pos|] eqn:Hpos; [|discriminate].
  destruct (players g !! pos) as [p|] eqn:Hp; [|discriminate].
  destruct (String.eqb (id p) (draw_player_id request)) eqn:Hpid; [|discriminate].
  apply String.eqb_eq in Hpid.
  simpl negb in Hstep. cbv iota zeta in Hstep. injection Hstep as <-.
  simpl in Hplayable. rewrite Hplayable. simpl.
  destruct (find_card_In (hand p ++ [random_card rnd]) (random_card rnd))
    as (idx & Hidx); [apply in_or_app; right; now left|].
  set (p' := set_card_count (set_hand p (hand p ++ [random_card rnd]))
               (Z.of_nat (length (hand p ++ [random_card rnd])))).
  set (g' := set_last_action
               (set_draw_pile_count
                  (set_players g (<[pos := p']> (players g)))
                  (Z.max 0 (draw_pile_count g - 1)))
               (name p ++ " drew a card")).
  assert (Hlegal : legal_play g'
                     (mkPlayCardRequest (draw_player_id request) (random_card rnd) None)
                     pos p' idx).
  { unfold legal_play, g'. simpl. rewrite length_insert.
    repeat split; auto.
    apply list_lookup_insert_eq. eapply lookup_lt_Some, Hp. }
  rewrite (play_card_step_legal _ _ _ _ _ Hlegal). simpl card. simpl chosen_color.
  rewrite recolor_None. cbv zeta.
  destruct (_ =? _)%nat; do 2 eexists; split; reflexivity.
Qed.

Lemma drawn_card_can_be_played_witness :
  exists db'' resp',
    play_card "g4" (mkPlayCardRequest "p2" (mkCard blue "reverse") None)
      (fst (draw_card (mkDrawRandom (1 # 2) (1 # 4) 1 11) "g4"
              (mkDrawCardRequest "p2") [game_bob]))
    = (db'', Ok resp')
    /\ top_card (play_game_state resp') = mkCard blue "reverse".
Proof.
  destruct (draw_card (mkDrawRandom (1 # 2) (1 # 4) 1 11) "g4"
              (mkDrawCardRequest "p2") [game_bob]) as [db' [resp|e]] eqn:E.
  - assert (Hc : drawn_card resp = mkCard blue "reverse")
      by (vm_compute in E; now injection E as _ <-).
    rewrite <- Hc.
    apply (drawn_card_can_be_played (mkDrawRandom (1 # 2) (1 # 4) 1 11) "g4"
             (mkDrawCardRequest "p2") [game_bob] db' resp E).
    vm_compute in E. now injection E as _ <-.
  - vm_compute in E. discriminate.
Defined.

(** ** Two players *)

(** X14: in a well-formed game of two players, an accepted play that does
    not win leaves the turn with the same player when the card is a skip,
    draw2 or wild4, and passes it to the other player for every other
    card, a reverse included. *)
Theorem two_player_turns (gid : string) (request : PlayCardRequest)
    (db db' : Collection) (resp : PlayResponse) (game_state : GameState) :
  List.find (fun g => String.eqb (game_id g) gid) db = Some game_state ->
  state_ok game_state ->
  length (players game_state) = 2%nat ->
  play_card gid request db = (db', Ok resp) ->
  action resp <> Some "win" ->
  current_player_index (play_game_state resp)
  = if existsb (String.eqb (value (card request))) ["skip"; "draw2"; "wild4"]
    then current_player_index game_state
    else 1 - current_player_index game_state.
Proof.
  intros Hfind (Hidx & Hdir & _) Hlen H Htag.
  apply play_card_Ok in H as (g & Hfind' & Hstep & _).
  rewrite Hfind in Hfind'. injection Hfind' as <-.
  destruct (play_card_step_Ok _ _ _ Hstep) as (pos & p & idx & Hlegal).
  rewrite (play_card_step_legal _ _ _ _ _ Hlegal) in Hstep.
  destruct (recolor (card request) (chosen_color request)) as [played|e] eqn:Hcol;
    [|discriminate].
  pose proof (recolor_value _ _ _ Hcol) as Hval.
  cbv zeta in Hstep.
  destruct (length (delete idx (hand p)) =? 0)%nat; injection Hstep as Hg Ha;
    [congruence|].
  rewrite <- Hg. unfold set_current_player_index. cbn [current_player_index].
  rewrite next_player_change_table, action_direction_table, Hval, Hlen.
  rewrite Hlen in Hidx.
  assert (Hi : current_player_index game_state = 0 \/ current_player_index game_state = 1)
    by lia.
  destruct (existsb (String.eqb (value (card request))) ["skip"; "draw2"; "wild4"]);
    destruct (String.eqb (value (card request)) "reverse");
    destruct Hi as [-> | ->]; destruct Hdir as [-> | ->]; reflexivity.
Qed.

Lemma two_player_turns_witness :
  current_player_index
    (set_current_player_index
       (set_last_action (discard_state game_wild 1 dave 0 (mkCard wild "wild"))
          "Dave played Wild") 0)
  = if existsb (String.eqb "wild") ["skip"; "draw2"; "wild4"]
    then 1 else 1 - 1.
Proof.
  apply (two_player_turns "g3" (mkPlayCardRequest "p4" (mkCard wild "wild") None)
           [game_wild]
           [set_current_player_index
              (set_last_action (discard_state game_wild 1 dave 0 (mkCard wild "wild"))
                 "Dave played Wild") 0]
           (mkPlayResponse
              (set_current_player_index
                 (set_last_action (discard_state game_wild 1 dave 0 (mkCard wild "wild"))
                    "Dave played Wild") 0)
              (Some "wild"))
           game_wild).
  - reflexivity.
  - unfold state_ok. simpl. repeat split; try lia; auto; repeat constructor.
  - reflexivity.
  - reflexivity.
  - discriminate.
Defined.

(** ** An exhausted draw pile *)

(** X15: a draw is never refused for want of cards: with draw_pile_count
    at 0 the player whose turn it is still receives a card of the
    standard deck at the end of the hand, and the counter stays 0. *)
Theorem draw_card_empty_pile (rnd : DrawRandom) (gid : string)
    (request : DrawCardRequest) (db : Collection) (game_state : GameState)
    (pos : nat) (current_player : Player) :
  List.find (fun g => String.eqb (game_id g) gid) db = Some game_state ->
  game_over game_state = false ->
  py_position (length (players game_state)) (current_player_index game_state) = Some pos ->
  players game_state !! pos = Some current_player ->
  id current_player = draw_player_id request ->
  draw_pile_count game_state = 0 ->
  exists resp player',
    draw_card rnd gid request db
    = (replace_first gid (draw_game_state resp) db, Ok resp)
    /\ draw_pile_count (draw_game_state resp) = 0
    /\ In (drawn_card resp) create_deck
    /\ players (draw_game_state resp) !! pos = Some player'
    /\ hand player' = hand current_player ++ [drawn_card resp].
Proof.
  intros Hfind Hover Hpos Hp Hid Hzero.
  rewrite (draw_card_found _ _ _ _ _ Hfind). unfold draw_card_step.
  rewrite Hover, Hpos, Hp, Hid, String.eqb_refl. simpl negb. cbv iota zeta.
  assert (Hlt : (pos < length (players game_state))%nat)
    by (eapply lookup_lt_Some, Hp).
  do 2 eexists. split; [reflexivity|].
  destruct (can_play_card (random_card rnd) _); simpl; rewrite Hzero;
    (split; [reflexivity|]); (split; [apply random_card_in_deck_helper|]);
    (split; [now apply list_lookup_insert_eq|reflexivity]).
Qed.

Lemma draw_card_empty_pile_witness :
  exists resp player',
    draw_card (mkDrawRandom (1 # 2) (1 # 4) 2 11) "g4" (mkDrawCardRequest "p2")
      [set_draw_pile_count game_bob 0]
    = (replace_first "g4" (draw_game_state resp) [set_draw_pile_count game_bob 0], Ok resp)
    /\ draw_pile_count (draw_game_state resp) = 0
    /\ In (drawn_card resp) create_deck
    /\ players (draw_game_state resp) !! 1%nat = Some player'
    /\ hand player' = hand bob ++ [drawn_card resp].
Proof.
  apply (draw_card_empty_pile (mkDrawRandom (1 # 2) (1 # 4) 2 11) "g4"
           (mkDrawCardRequest "p2") [set_draw_pile_count game_bob 0]
           (set_draw_pile_count game_bob 0) 1%nat bob); reflexivity.
Defined.
